(** * LearnRevitAPI: the "Rename Views" and "Manual Rebar Placement" buttons

    A shallow embedding of the two pyRevit scripts
    [Dev.panel/FirstButton.pushbutton/script.py] (view renaming) and
    [Dev.panel/InsertRebar.pushbutton/script.py] (rebar placement), with the
    properties their specification states about them.

    The scripts talk to the Revit document through the host API.  The part
    of the host that a property depends on is modelled explicitly: the named
    views of the document as a finite map, the host calls a script makes as
    a trace of events, and an exception raised by a host call as an error
    result.  The lengths the rebar script computes with are Python floats:
    binary64 numbers, with the rounding of each operation. *)

From Stdlib Require Import ZArith QArith String Ascii List Lia.
From Stdlib Require Import PrimFloat FloatOps SpecFloat FloatAxioms.
From stdpp Require Import gmap strings list.

Local Open Scope string_scope.
Local Open Scope list_scope.
Local Open Scope Z_scope.

(** ** Python built-ins used by the scripts *)

Module Py.

(** [range(n)] for a Python integer [n]: empty when [n <= 0]. *)
Definition range (n : Z) : list Z := map Z.of_nat (seq 0 (Z.to_nat n)).

(** [s * k] for a one-character string, as in ['-'*50]. *)
Fixpoint str_mul (s : string) (k : nat) : string :=
  match k with
  | O => EmptyString
  | S k' => String.app s (str_mul s k')
  end.

(** [s.replace(find, repl)] when [find] is not empty: the occurrences of
    [find] are replaced from left to right and do not overlap.  [skip]
    counts the characters of the occurrence just replaced that are still
    to be dropped. *)
Fixpoint replace_from (find repl : string) (skip : nat) (s : string) : string :=
  match s with
  | EmptyString => EmptyString
  | String c s' =>
      match skip with
      | S k => replace_from find repl k s'
      | O =>
          if String.prefix find s
          then String.app repl (replace_from find repl (Nat.pred (String.length find)) s')
          else String c (replace_from find repl O s')
      end
  end.

(** [s.replace("", repl)]: Python puts [repl] before every character and
    at the end. *)
Fixpoint interleave (repl s : string) : string :=
  match s with
  | EmptyString => repl
  | String c s' => String.app repl (String c (interleave repl s'))
  end.

Definition replace (s find repl : string) : string :=
  match find with
  | EmptyString => interleave repl s
  | String _ _ => replace_from find repl O s
  end.

(** [find in s], for a [find] that is not empty. *)
Fixpoint occurs (find s : string) : bool :=
  match s with
  | EmptyString => false
  | String _ s' => String.prefix find s || occurs find s'
  end.

(** The white space of [str.strip()] and [str.split()], for the ASCII
    characters: tab, line feed, vertical tab, form feed, carriage return
    and space. *)
Definition is_space (c : ascii) : bool :=
  let n := N_of_ascii c in ((9 <=? n) && (n <=? 13) || (n =? 32))%N.

Fixpoint lstrip (s : string) : string :=
  match s with
  | EmptyString => EmptyString
  | String c s' => if is_space c then lstrip s' else s
  end.

(** [rstrip] keeps a character when something that is not white space
    follows it or when it is not white space itself. *)
Fixpoint rstrip (s : string) : string :=
  match s with
  | EmptyString => EmptyString
  | String c s' =>
      match rstrip s' with
      | EmptyString => if is_space c then EmptyString else String c EmptyString
      | String _ _ as t => String c t
      end
  end.

(** [s.strip()] *)
Definition strip (s : string) : string := rstrip (lstrip s).

(** [s.split()]: the maximal runs of characters that are not white space.
    [word] is the run being read, in reverse. *)
Fixpoint split_from (word : option string) (s : string) : list string :=
  match s with
  | EmptyString =>
      match word with
      | Some w => [String.rev w]
      | None => []
      end
  | String c s' =>
      if is_space c
      then match word with
           | Some w => String.rev w :: split_from None s'
           | None => split_from None s'
           end
      else match word with
           | Some w => split_from (Some (String c w)) s'
           | None => split_from (Some (String c EmptyString)) s'
           end
  end.

Definition split (s : string) : list string := split_from None s.

Definition digit (c : ascii) : option Z :=
  let n := N_of_ascii c in
  if ((48 <=? n) && (n <=? 57))%N then Some (Z.of_N n - 48) else None.

(** The value of a run of decimal digits, [acc] being the value of the
    digits already read; [None] at a character that is not a digit. *)
Fixpoint digits (acc : Z) (s : string) : option Z :=
  match s with
  | EmptyString => Some acc
  | String c s' =>
      match digit c with
      | Some k => digits (10 * acc + k) s'
      | None => None
      end
  end.

(** [int(s)] of Python 2 for a string: white space around the literal is
    dropped, then an optional sign and at least one decimal digit.
    [None] is [ValueError]. *)
Definition int (s : string) : option Z :=
  match strip s with
  | EmptyString => None
  | String "+" (String _ _ as t) => digits 0 t
  | String "-" (String _ _ as t) => option_map Z.opp (digits 0 t)
  | String "+" EmptyString | String "-" EmptyString => None
  | String _ _ as t => digits 0 t
  end.

(** Decimal numerals, to say what [int] reads: the numeral with the digits
    [ds], the most significant first, and the number it denotes. *)
Definition digit_char (d : nat) : ascii := ascii_of_nat (48 + d).

Fixpoint numeral (ds : list nat) : string :=
  match ds with
  | [] => EmptyString
  | d :: ds' => String (digit_char d) (numeral ds')
  end.

Definition value_from (acc : Z) (ds : list nat) : Z :=
  fold_left (λ a d, 10 * a + Z.of_nat d) ds acc.

Definition value (ds : list nat) : Z := value_from 0 ds.

(** No character of the string is white space. *)
Fixpoint no_space (s : string) : bool :=
  match s with
  | EmptyString => true
  | String c s' => negb (is_space c) && no_space s'
  end.

End Py.

(** ** FirstButton.pushbutton: Rename Views *)

Module RenameViews.

(** The values of the four text boxes of the form. *)
Record Rule : Type := mkRule {
  prefix : string;
  find : string;
  replace : string;
  suffix : string
}.

(** The views of the document: element id of the view to its [Name].
    An id that is not in the map is not a view. *)
Abbreviation Doc := (gmap Z string).

(** What the script does to the host, in order. *)
Inductive Event : Type :=
| Alert (msg : string)              (* forms.alert(msg, exitscript=True) *)
| TxStart (name : string)           (* t.Start() *)
| TxCommit                          (* t.Commit() *)
| SetName (v : Z) (name : string) (accepted : bool)  (* view.Name = name *)
| Print (line : string).            (* print(line) *)

(** Modelled from the spec: the host's check in the setter of [View.Name],
    which is not part of the repository.  The mutation scope "rejects a
    rename that collides with an existing sibling name": some other view
    of the document already has the name. *)
Definition name_taken (d : Doc) (v : Z) (name : string) : bool :=
  existsb (fun wn => negb (Z.eqb (fst wn) v) && String.eqb (snd wn) name)
          (map_to_list d).

(** [view.Name = name]: [None] when the host raises. *)
Definition set_Name (d : Doc) (v : Z) (name : string) : option Doc :=
  if name_taken d v name then None else Some (<[v := name]> d).

(** Line 95: [prefix + old_name.replace(find, replace) + suffix]. *)
Definition new_name (r : Rule) (old_name : string) : string :=
  String.app (String.app (prefix r) (Py.replace old_name (find r) (replace r)))
             (suffix r).

(** ['{} -> {}'.format(old_name, new_name)] *)
Definition report (old_name name : string) : string :=
  String.app old_name (String.app " -> " name).

(** Lines 98-104: the loop [for i in range(20)], with [n] iterations left.
    A successful assignment prints and breaks; a failed one appends ['*']
    and goes on. *)
Fixpoint retry (n : nat) (d : Doc) (v : Z) (old_name name : string)
  : Doc * list Event :=
  match n with
  | O => (d, [])
  | S n' =>
      match set_Name d v name with
      | Some d' => (d', [SetName v name true; Print (report old_name name)])
      | None =>
          let '(d', ev) := retry n' d v old_name (String.app name "*") in
          (d', SetName v name false :: ev)
      end
  end.

(** Lines 93-104: the body of [for view in sel_view].  Reading the name of
    a handle that is not a view of the document is an exception that
    nothing catches: [None]. *)
Definition rename_view (r : Rule) (d : Doc) (v : Z) : option (Doc * list Event) :=
  match d !! v with
  | Some old_name => Some (retry 20 d v old_name (new_name r old_name))
  | None => None
  end.

(** Lines 92-104: [for view in sel_view]. *)
Fixpoint rename_loop (r : Rule) (d : Doc) (sel_view : list Z)
  : option (Doc * list Event) :=
  match sel_view with
  | [] => Some (d, [])
  | v :: rest =>
      match rename_view r d v with
      | Some (d1, e1) =>
          match rename_loop r d1 rest with
          | Some (d2, e2) => Some (d2, e1 ++ e2)
          | None => None
          end
      | None => None
      end
  end.

(** How a run of the script ends. *)
Inductive Status : Type :=
| Completed       (* the script reached its last line *)
| Exited          (* forms.alert(..., exitscript=True) *)
| Crashed.        (* an exception nothing catches *)

(** Line 54: the selected elements that are views. *)
Definition selected_views (d : Doc) (selection : list Z) : list Z :=
  List.filter (fun e_id => bool_decide (is_Some (d !! e_id))) selection.

(** The events of the loop up to an exception that nothing catches: those
    of the views before the handle whose name cannot be read. *)
Fixpoint rename_events (r : Rule) (d : Doc) (sel_view : list Z) : list Event :=
  match sel_view with
  | [] => []
  | v :: rest =>
      match rename_view r d v with
      | Some (d1, e1) => e1 ++ rename_events r d1 rest
      | None => []
      end
  end.

(** The whole script.  [selection] is [uidoc.Selection.GetElementIds()],
    [picked] what [forms.select_views()] returns if it is called ([None]
    when the dialog is dismissed).  [user_inputs] is [form.values] after
    [form.show()], whose result line 79 drops: the values of the four text
    boxes when the form was closed with its button, and [None] for the
    dict without keys of a form that was closed in another way.  Line 82
    indexes it with no guard, so that a dismissed form is a [KeyError] that
    nothing catches, before the transaction is started.  A transaction
    that is started and never committed leaves the document as it was. *)
Definition script (d : Doc) (selection : list Z) (picked : option (list Z))
           (user_inputs : option Rule) : Doc * list Event * Status :=
  let sel_view := selected_views d selection in
  let sel_view :=
    match sel_view with
    | [] => match picked with Some vs => vs | None => [] end
    | _ :: _ => sel_view
    end in
  match sel_view with
  | [] => (d, [Alert "No Views Selected. Please Try Again"], Exited)
  | _ :: _ =>
      match user_inputs with
      | None => (d, [], Crashed)                       (* line 82 *)
      | Some rule =>
          match rename_loop rule d sel_view with
          | Some (d', ev) =>
              (d', TxStart "py-Rename Views" :: ev
                   ++ [TxCommit; Print (Py.str_mul "-" 50); Print "Done"],
               Completed)
          | None =>
              (d, TxStart "py-Rename Views" :: rename_events rule d sel_view,
               Crashed)
          end
      end
  end.

(** The candidate after [k] failed attempts: [k] sentinel characters
    behind the first candidate. *)
Definition starred (name : string) (k : nat) : string :=
  String.app name (Py.str_mul "*" k).

(** The first [k] candidates, in the order they are tried. *)
Definition candidates (name : string) (k : nat) : list string :=
  map (starred name) (seq 0 k).

(** No two views of the document have the same name. *)
Definition distinct_names (d : Doc) : Prop :=
  ∀ v w name, d !! v = Some name → d !! w = Some name → v = w.

(** The trace of an attempt the host rejected. *)
Definition rejected (v : Z) (name : string) : Event := SetName v name false.

(** The rename rule of the example in the specification. *)
Definition floorplan_rule : Rule :=
  {| prefix := "L-"; find := "FloorPlan"; replace := "Level"; suffix := "" |}.

(** A document in which view 0 is called "A" and twenty other views hold
    "A", "A*", ..., "A" followed by nineteen sentinels. *)
Definition crowded : Doc :=
  <[0 := "A"]> (list_to_map (map (λ k, (Z.of_nat (S k), starred "A" k)) (seq 0 20))).

(** Two views; the second one already has the name the rule of the
    example gives the first. *)
Definition two_plans : Doc := <[1 := "FloorPlan 1"]> (<[2 := "L-Level 1"]> ∅).

End RenameViews.

(** ** InsertRebar.pushbutton: Manual Rebar Placement *)

Module InsertRebar.

(** The arithmetic of the document's lengths.  The script computes with
    Python floats, which are binary64 numbers: [Binary64.float_Number]
    below.  It is written here over the operations it uses, and what does
    not depend on how they round is proved for any such operations.
    [of_int] is the conversion Python applies to an [int] operand of a
    mixed operation. *)
Class Number (F : Type) : Type := {
  add : F → F → F;
  sub : F → F → F;
  mul : F → F → F;
  div : F → F → F;
  of_int : Z → F
}.

Declare Scope number_scope.
Delimit Scope number_scope with num.
Infix "+" := add : number_scope.
Infix "-" := sub : number_scope.
Infix "*" := mul : number_scope.
Infix "/" := div : number_scope.

Inductive StructuralType : Type :=
| NonStructural | Beam | Brace | Column | Footing | UnknownFraming.

Inductive WallKind : Type :=
| Unknown | Basic | Curtain | Stacked.

(** The classes of the host API the filter tells apart.  A family
    instance carries its [StructuralType] (a door or a piece of furniture
    is [NonStructural]), a wall the [Kind] of its [WallType]. *)
Inductive ElementClass : Type :=
| FamilyInstance (structural_type : StructuralType)
| Wall (kind : WallKind)
| Floor
| OtherElement.

Inductive Axis : Type := BasisX | BasisY | BasisZ.

(** How a run of the script ends. *)
Inductive Status : Type :=
| Completed       (* the script reached its last line *)
| Exited.         (* forms.alert(..., exitscript=True) *)

(** What a call that can raise gives back. *)
Inductive Result (A : Type) : Type :=
| Returned (a : A)
| Raised (message : string).
Arguments Returned {A} a.
Arguments Raised {A} message.

Section Script.
Context {F : Type} {number : Number F}.
Local Open Scope number_scope.

Record XYZ : Type := mkXYZ { X : F; Y : F; Z_ : F }.

Record BoundingBoxXYZ : Type := mkBoundingBox { Min : XYZ; Max : XYZ }.

(** [Line.CreateBound(p, q)] *)
Record Line : Type := mkLine { first_end : XYZ; second_end : XYZ }.

(** An element of the document: its id, its class and what
    [get_BoundingBox(None)] gives for it. *)
Record Element : Type := mkElement {
  Id : Z;
  class : ElementClass;
  BoundingBox : option BoundingBoxXYZ
}.

(** The calls to the host that can raise.  Of [Rebar.CreateFromCurves]
    the arguments that change are kept: the bar type, the host element,
    the normal and the curves; the style, the two unset hook types, the
    two hook orientations and the two flags are the same in every call. *)
Inductive Call : Type :=
| get_BoundingBox (element : Z)
| Start (name : string)
| CreateBound (p q : XYZ)
| CreateFromCurves (rebar_type : Z) (host : Z) (norm : Axis) (curves : list Line)
| Commit.

Inductive Event : Type :=
| Called (c : Call)
| Dispose                                   (* the end of a [with] block *)
| PrintSkipping (element : Z)               (* "Skipping {0} - no bounding box" *)
| PrintFailed (element : Z) (message : string)   (* "Failed on {0}: {1}" *)
| Alert (msg : string)                      (* forms.alert(msg, exitscript=True) *)
| Summary (success_count total vertical horizontal : Z).  (* the last alert *)

(** The host: whether a call raises, and with what message, given all
    that happened before it. *)
Variable raises : list Event → Call → option string.

(** A computation reads the events so far and gives the events it adds
    and a value or an exception. *)
Definition M (A : Type) : Type := list Event → list Event * Result A.

Definition ret {A} (a : A) : M A := λ _, ([], Returned a).

Definition bind {A B} (m : M A) (f : A → M B) : M B :=
  λ past,
    match m past with
    | (ev, Returned a) =>
        let '(ev', r) := f a (past ++ ev) in (ev ++ ev', r)
    | (ev, Raised message) => (ev, Raised message)
    end.

Notation "m >> f" := (bind m (λ _, f))
  (at level 65, right associativity).

Definition call (c : Call) : M unit :=
  λ past,
    match raises past c with
    | Some message => ([Called c], Raised message)
    | None => ([Called c], Returned tt)
    end.

Definition emit (e : Event) : M unit := λ _, ([e], Returned tt).

(** [for a in l: body(a)] *)
Fixpoint for_each {A} (l : list A) (body : A → M unit) : M unit :=
  match l with
  | [] => ret tt
  | a :: l' => body a >> for_each l' body
  end.

(** [with Transaction(...) as t: block]: the transaction is disposed of
    when the block is left, by its end or by an exception. *)
Definition with_Transaction {A} (block : M A) : M A :=
  λ past, let '(ev, r) := block past in (ev ++ [Dispose], r).

(** Line 36: [SNI_COVER = 0.040], the number closest to 40/1000. *)
Definition SNI_COVER : F := of_int 40 / of_int 1000.

(** Lines 43-61.  The loop of [get_valid_elements]. *)
Definition WallType (element : Element) : option WallKind :=
  match class element with
  | Wall kind => Some kind
  | _ => None
  end.

Definition isinstance_FamilyInstance_Wall_Floor (element : Element) : bool :=
  match class element with
  | FamilyInstance _ | Wall _ | Floor => true
  | OtherElement => false
  end.

Definition is_Basic (kind : WallKind) : bool :=
  match kind with
  | Basic => true
  | _ => false
  end.

Fixpoint valid_elements (doc : gmap Z Element) (selection : list Z) : list Element :=
  match selection with
  | [] => []
  | elem_id :: rest =>
      match doc !! elem_id with
      | None => valid_elements doc rest
      | Some element =>
          if isinstance_FamilyInstance_Wall_Floor element
          then match WallType element with
               | Some kind =>
                   if negb (is_Basic kind)
                   then valid_elements doc rest
                   else element :: valid_elements doc rest
               | None => element :: valid_elements doc rest
               end
          else valid_elements doc rest
      end
  end.

(** [get_valid_elements()]: the alert ends the script. *)
Definition get_valid_elements (doc : gmap Z Element) (selection : list Z)
  : Result (list Element) :=
  match valid_elements doc selection with
  | [] => Raised "No valid structural elements selected!"
  | (_ :: _) as valid => Returned valid
  end.

(** Lines 76-80: the body of the [try] of [get_rebar_counts]; [None]
    when it raises ([IndexError] or [ValueError]). *)
Definition parse_counts (input : string) : option (Z * Z) :=
  match Py.split (Py.strip input) with
  | [] => None
  | part0 :: rest =>
      match Py.int part0 with
      | None => None
      | Some vertical =>
          match rest with
          | [] => Some (Z.max 1 vertical, Z.max 1 vertical)
          | part1 :: _ =>
              match Py.int part1 with
              | Some horizontal => Some (Z.max 1 vertical, Z.max 1 horizontal)
              | None => None
              end
          end
      end
  end.

Definition no_input_message : string := "No input provided!".
Definition format_message : string := "Invalid input! Use format '3' or '3 5'".

(** Lines 64-82.  [input] is what [forms.ask_for_string] returns, [None]
    when the dialog is dismissed; [Raised msg] is the alert that ends
    the script. *)
Definition get_rebar_counts (input : option string) : Result (Z * Z) :=
  match input with
  | None | Some EmptyString => Raised no_input_message
  | Some (String _ _ as text) =>
      match parse_counts text with
      | Some counts => Returned counts
      | None => Raised format_message
      end
  end.

(** Lines 98 and 101: the spacing for [count] bars over [extent]. *)
Definition spacing (extent : F) (count : Z) : F :=
  if (1 <? count)%Z
  then (extent - of_int 2 * SNI_COVER) / of_int (Z.max 1 (count - 1))
  else of_int 0.

(** Lines 109-113: the line of the [i]-th vertical bar. *)
Definition vertical_line (bbox : BoundingBoxXYZ) (v_spacing : F) (i : Z) : XYZ * XYZ :=
  let x := X (Min bbox) + SNI_COVER + of_int i * v_spacing in
  (mkXYZ x (Y (Min bbox) + SNI_COVER) (Z_ (Min bbox) + SNI_COVER),
   mkXYZ x (Y (Min bbox) + SNI_COVER) (Z_ (Max bbox) - SNI_COVER)).

(** Lines 123-127: the line of the [i]-th horizontal bar. *)
Definition horizontal_line (bbox : BoundingBoxXYZ) (h_spacing : F) (i : Z) : XYZ * XYZ :=
  let z := Z_ (Min bbox) + SNI_COVER + of_int i * h_spacing in
  (mkXYZ (X (Min bbox) + SNI_COVER) (Y (Min bbox) + SNI_COVER) z,
   mkXYZ (X (Max bbox) - SNI_COVER) (Y (Min bbox) + SNI_COVER) z).

(** One bar: [Line.CreateBound] then [Rebar.CreateFromCurves]. *)
Definition create_rebar (rebar_type host : Z) (norm : Axis) (ends : XYZ * XYZ) : M unit :=
  call (CreateBound (fst ends) (snd ends)) >>
  call (CreateFromCurves rebar_type host norm [mkLine (fst ends) (snd ends)]).

(** Lines 88-136: the body of the [try] of [place_rebars]. *)
Definition place_rebars_try (element : Element) (rebar_type vertical horizontal : Z)
  : M bool :=
  call (get_BoundingBox (Id element)) >>
  match BoundingBox element with
  | None => emit (PrintSkipping (Id element)) >> ret false
  | Some bbox =>
      let width := X (Max bbox) - X (Min bbox) in
      let height := Z_ (Max bbox) - Z_ (Min bbox) in
      let v_spacing := spacing width vertical in
      let h_spacing := spacing height horizontal in
      with_Transaction (
        call (Start "Place Rebars") >>
        for_each (Py.range vertical) (λ i,
          create_rebar rebar_type (Id element) BasisX (vertical_line bbox v_spacing i)) >>
        for_each (Py.range horizontal) (λ i,
          create_rebar rebar_type (Id element) BasisZ (horizontal_line bbox h_spacing i)) >>
        call Commit) >>
      ret true
  end.

(** Lines 85-140: [place_rebars], the events it adds and what it
    returns.  [except Exception] prints the failure and returns
    [False]. *)
Definition place_rebars (element : Element) (rebar_type vertical horizontal : Z)
           (past : list Event) : list Event * bool :=
  match place_rebars_try element rebar_type vertical horizontal past with
  | (ev, Returned ok) => (ev, ok)
  | (ev, Raised message) => (ev ++ [PrintFailed (Id element) message], false)
  end.

(** Lines 176-179: the placement loop, with the events it adds and
    [success_count]. *)
Fixpoint placement_loop (elements : list Element) (rebar_type vertical horizontal : Z)
         (past : list Event) : list Event * Z :=
  match elements with
  | [] => ([], 0%Z)
  | element :: rest =>
      let '(ev, ok) := place_rebars element rebar_type vertical horizontal past in
      let '(ev', success_count) :=
        placement_loop rest rebar_type vertical horizontal (past ++ ev) in
      (ev ++ ev', ((if ok then 1 else 0) + success_count)%Z)
  end.

(** Lines 163-167: the first rebar type with the chosen name. *)
Fixpoint find_type (rebar_types : list (Z * string)) (name : string) : option Z :=
  match rebar_types with
  | [] => None
  | (rt, rt_name) :: rest =>
      if String.eqb rt_name name then Some rt else find_type rest name
  end.

(** Lines 144-192: the script.  [rebar_types] are the bar types of the
    document with the names shown for them, [rebar_type_name] the
    answer of [forms.SelectFromList.show], [input] the answer of
    [forms.ask_for_string]. *)
Definition main (doc : gmap Z Element) (selection : list Z)
           (rebar_types : list (Z * string)) (rebar_type_name : option string)
           (input : option string) : list Event * Status :=
  match get_valid_elements doc selection with
  | Raised msg => ([Alert msg], Exited)
  | Returned elements =>
      match rebar_type_name with
      | None | Some EmptyString => ([Alert "No rebar type selected!"], Exited)
      | Some (String _ _ as name) =>
          match find_type rebar_types name with
          | None => ([Alert "Failed to find selected rebar type!"], Exited)
          | Some selected_type =>
              match get_rebar_counts input with
              | Raised msg => ([Alert msg], Exited)
              | Returned (vertical, horizontal) =>
                  let '(ev, success_count) :=
                    placement_loop elements selected_type vertical horizontal [] in
                  (ev ++ [Summary success_count (Z.of_nat (length elements))
                                  vertical horizontal],
                   Completed)
              end
          end
      end
  end.

End Script.

Arguments XYZ F : clear implicits.
Arguments BoundingBoxXYZ F : clear implicits.
Arguments Line F : clear implicits.
Arguments Element F : clear implicits.
Arguments Call F : clear implicits.
Arguments Event F : clear implicits.

(** What the properties below observe in a run. *)
Section Observations.
Context {F : Type} {number : Number F}.
Local Open Scope number_scope.

(** The two host calls of one bar. *)
Definition bar_calls (rebar_type host : Z) (norm : Axis) (ends : XYZ F * XYZ F)
  : list (Event F) :=
  [Called (CreateBound (fst ends) (snd ends));
   Called (CreateFromCurves rebar_type host norm [mkLine (fst ends) (snd ends)])].

(** A create-rebar call. *)
Definition is_create (e : Event F) : bool :=
  match e with
  | Called (CreateFromCurves _ _ _ _) => true
  | _ => false
  end.

(** An event of a mutation scope: its start, a bar, its commit. *)
Definition is_mutation (e : Event F) : bool :=
  match e with
  | Called (Start _) | Called (CreateFromCurves _ _ _ _) | Called Commit => true
  | _ => false
  end.

Definition is_Alert (e : Event F) : bool :=
  match e with
  | Alert _ => true
  | _ => false
  end.

(** Every line an event mentions has both ends at [Y = y]. *)
Definition in_plane (y : F) (e : Event F) : Prop :=
  match e with
  | Called (CreateBound p q) => Y p = y ∧ Y q = y
  | Called (CreateFromCurves _ _ _ curves) =>
      Forall (λ l, Y (first_end l) = y ∧ Y (second_end l) = y) curves
  | _ => True
  end.

(** Where the bars of a run are: the [X] of the curves of its create-rebar
    calls with normal [BasisX], the vertical bars, and the [Z] of the
    curves of those with normal [BasisZ], the horizontal bars, in the
    order of the calls. *)
Definition created_xs (events : list (Event F)) : list F :=
  flat_map (λ e, match e with
                 | Called (CreateFromCurves _ _ BasisX curves) =>
                     map (λ l, X (first_end l)) curves
                 | _ => []
                 end) events.

Definition created_zs (events : list (Event F)) : list F :=
  flat_map (λ e, match e with
                 | Called (CreateFromCurves _ _ BasisZ curves) =>
                     map (λ l, Z_ (first_end l)) curves
                 | _ => []
                 end) events.

(** The elements the filter lets through: family instances, walls of
    the basic kind and floors. *)
Definition passes_filter (element : Element F) : bool :=
  match class element with
  | FamilyInstance _ => true
  | Wall kind => is_Basic kind
  | Floor => true
  | OtherElement => false
  end.

(** The filter as the specification words it: a structural family
    instance, a wall of the basic kind, or a floor. *)
Definition spec_filter (element : Element F) : bool :=
  match class element with
  | FamilyInstance NonStructural => false
  | FamilyInstance _ => true
  | Wall kind => is_Basic kind
  | Floor => true
  | OtherElement => false
  end.

(** A family instance that frames or carries the structure. *)
Definition is_structural (st : StructuralType) : bool :=
  match st with
  | NonStructural => false
  | _ => true
  end.

(** What the placement loop gets from [place_rebars], element by
    element. *)
Fixpoint outcomes (raises : list (Event F) → Call F → option string)
         (elements : list (Element F)) (rebar_type vertical horizontal : Z)
         (past : list (Event F)) : list (list (Event F) * bool) :=
  match elements with
  | [] => []
  | element :: rest =>
      let r := place_rebars raises element rebar_type vertical horizontal past in
      r :: outcomes raises rest rebar_type vertical horizontal (past ++ fst r)
  end.

(** A host that never raises. *)
Definition obliging : list (Event F) → Call F → option string := λ _ _, None.

(** A host that refuses every bar in a given element. *)
Definition refusing (host : Z) : list (Event F) → Call F → option string :=
  λ _ c,
    match c with
    | CreateFromCurves _ h _ _ =>
        if Z.eqb h host then Some "cannot host rebar" else None
    | _ => None
    end.
End Observations.

End InsertRebar.

(** Binary64 numbers, the floats of the script. *)
Module Binary64.
Import InsertRebar.

(** The float closest to an integer, ties to even. *)
Definition float_of_int (z : Z) : float :=
  SF2Prim (binary_normalize prec emax z 0 false).

#[export] Instance float_Number : Number float := {|
  add := PrimFloat.add; sub := PrimFloat.sub;
  mul := PrimFloat.mul; div := PrimFloat.div;
  of_int := float_of_int
|}.

(** A finite float: neither an infinity nor a NaN. *)
Definition finite (x : float) : bool :=
  match Prim2SF x with
  | S754_zero _ | S754_finite _ _ _ => true
  | _ => false
  end.

(** The same number: equal as numbers, as the two zeros are, or both not
    a number. *)
Definition same_number (x y : float) : bool :=
  (x =? y)%float || (is_nan x && is_nan y).

(** The rational number a finite float stands for: the mantissa [m] with
    its sign, times two to the exponent [e]. *)
Definition exact_value (x : float) : option Q :=
  match Prim2SF x with
  | S754_zero _ => Some 0%Q
  | S754_finite s m e =>
      let n := if s then Z.neg m else Z.pos m in
      Some (match e with
            | Z.neg k => Qmake n (2 ^ k)
            | _ => inject_Z (n * 2 ^ e)
            end)
  | _ => None
  end.

(** The box of the example in the specification, with Y from 0 to 1/2,
    and elements to run the script on. *)
Definition unit_box : BoundingBoxXYZ float :=
  mkBoundingBox (mkXYZ 0 0 0)%float (mkXYZ 1 0.5 2)%float.
Definition slab : Element float := mkElement 7 Floor (Some unit_box).
Definition door : Element float :=
  mkElement 5 (FamilyInstance NonStructural) (Some unit_box).
Definition curtain_wall : Element float := mkElement 6 (Wall Curtain) (Some unit_box).
Definition ghost : Element float := mkElement 8 (FamilyInstance Column) None.
Definition model : gmap Z (Element float) :=
  <[5 := door]> (<[6 := curtain_wall]> (<[7 := slab]> (<[8 := ghost]> ∅))).

End Binary64.

(** ** What further properties observe *)

Module Measures.
Import InsertRebar.

Definition is_SetName (e : RenameViews.Event) : bool :=
  match e with
  | RenameViews.SetName _ _ _ => true
  | _ => false
  end.

Definition is_accepted (e : RenameViews.Event) : bool :=
  match e with
  | RenameViews.SetName _ _ true => true
  | _ => false
  end.

Definition is_Print (e : RenameViews.Event) : bool :=
  match e with
  | RenameViews.Print _ => true
  | _ => false
  end.

(** An assignment to the view [v]. *)
Definition is_SetName_of (v : Z) (e : RenameViews.Event) : bool :=
  match e with
  | RenameViews.SetName w _ _ => Z.eqb w v
  | _ => false
  end.

(** What the loop of lines 98-104 does for a view when the host rejects
    the first [k] candidates: the [k] rejected assignments and, unless all
    twenty candidates were used up, the accepted assignment and the line
    printed for it. *)
Definition view_steps (v : Z) (old_name name : string) (k : nat)
  : list RenameViews.Event :=
  map (RenameViews.rejected v) (RenameViews.candidates name k)
  ++ (if (k <? 20)%nat
      then [RenameViews.SetName v (RenameViews.starred name k) true;
            RenameViews.Print
              (RenameViews.report old_name (RenameViews.starred name k))]
      else []).

(** An assignment or a printed line: what the loop over the views does. *)
Definition is_rename_step (e : RenameViews.Event) : bool :=
  is_SetName e || is_Print e.

(** What the loop over the views does for a view that is assigned its own
    name. *)
Definition kept (d : gmap Z string) (v : Z) : list RenameViews.Event :=
  match d !! v with
  | Some old =>
      [RenameViews.SetName v old true; RenameViews.Print (RenameViews.report old old)]
  | None => []
  end.

(** Only white space. *)
Fixpoint all_space (s : string) : bool :=
  match s with
  | EmptyString => true
  | String c s' => Py.is_space c && all_space s'
  end.

Section Rebar.
Context {F : Type} {number : Number F}.
Local Open Scope number_scope.

(** The calls of the transaction of an element, when none raises. *)
Definition transaction_calls (element : Element F) (bbox : BoundingBoxXYZ F)
           (rebar_type vertical horizontal : Z) : list (Event F) :=
  Called (Start "Place Rebars")
  :: flat_map (λ i, bar_calls rebar_type (Id element) BasisX
                      (vertical_line bbox
                         (spacing (X (Max bbox) - X (Min bbox)) vertical) i))
              (Py.range vertical)
  ++ flat_map (λ i, bar_calls rebar_type (Id element) BasisZ
                      (horizontal_line bbox
                         (spacing (Z_ (Max bbox) - Z_ (Min bbox)) horizontal) i))
              (Py.range horizontal)
  ++ [Called Commit].

(** A computation makes the calls of [full], in order, up to the first
    that raises. *)
Definition follows {A} (m : M A) (full : list (Event F)) : Prop :=
  ∀ past,
    match m past with
    | (ev, Returned _) => ev = full
    | (ev, Raised _) => ev ≠ [] ∧ ev `prefix_of` full
    end.


Definition is_Summary (e : Event F) : bool :=
  match e with
  | Summary _ _ _ _ => true
  | _ => false
  end.

End Rebar.

(** The five alerts that end the rebar script. *)
Definition exit_messages : list string :=
  ["No valid structural elements selected!"; "No rebar type selected!";
   "Failed to find selected rebar type!"; no_input_message; format_message].

End Measures.

(** ** What the parser of the counts reads *)

Module PyFacts.

Lemma app_assoc_str (a b c : string) :
  String.app (String.app a b) c = String.app a (String.app b c).
Proof.
  induction a as [|x a IH]; [reflexivity|].
  change (String x (String.app (String.app a b) c)
          = String x (String.app a (String.app b c))).
  now rewrite IH.
Qed.

Lemma app_empty_r (a : string) : String.app a "" = a.
Proof.
  induction a as [|x a IH]; [reflexivity|].
  change (String x (String.app a "") = String x a). now rewrite IH.
Qed.

Lemma digit_digit_char d : (d < 10)%nat → Py.digit (Py.digit_char d) = Some (Z.of_nat d).
Proof. intros Hd. do 10 (destruct d as [|d]; [reflexivity|]). lia. Qed.

Lemma is_space_digit_char d : (d < 10)%nat → Py.is_space (Py.digit_char d) = false.
Proof. intros Hd. do 10 (destruct d as [|d]; [reflexivity|]). lia. Qed.

Lemma digits_numeral ds : ∀ acc,
  Forall (λ d, (d < 10)%nat) ds →
  Py.digits acc (Py.numeral ds) = Some (Py.value_from acc ds).
Proof.
  induction ds as [|d ds IH]; intros acc Hds; [reflexivity|].
  apply Forall_cons in Hds as [Hd Hds].
  cbn [Py.numeral Py.digits]. rewrite (digit_digit_char d Hd).
  now rewrite IH.
Qed.

Lemma no_space_numeral ds :
  Forall (λ d, (d < 10)%nat) ds → Py.no_space (Py.numeral ds) = true.
Proof.
  induction 1 as [|d ds Hd _ IH]; [reflexivity|].
  cbn [Py.numeral Py.no_space]. now rewrite is_space_digit_char, IH.
Qed.

Lemma lstrip_word c s : Py.is_space c = false → Py.lstrip (String c s) = String c s.
Proof. intros Hc. cbn [Py.lstrip]. now rewrite Hc. Qed.

(** White space is only stripped from the end: a string that ends with a
    word keeps all of it. *)
Lemma rstrip_word s : ∀ c w,
  Py.no_space (String c w) = true →
  Py.rstrip (String.app s (String c w)) = String.app s (String c w).
Proof.
  induction s as [|x s IH]; intros c w Hw.
  - change (String.app "" (String c w)) with (String c w).
    revert c Hw. induction w as [|y w IHw]; intros c Hw.
    + cbn in Hw |- *. now destruct (Py.is_space c).
    + cbn [Py.no_space] in Hw. apply andb_true_iff in Hw as [Hc Hw].
      cbn [Py.rstrip]. fold (Py.rstrip (String y w)).
      change (match Py.rstrip (String y w) with
              | "" => if Py.is_space c then "" else String c ""
              | String _ _ as t => String c t
              end = String c (String y w)).
      now rewrite (IHw y Hw).
  - change (String.app (String x s) (String c w))
      with (String x (String.app s (String c w))).
    cbn [Py.rstrip]. rewrite (IH c w Hw).
    destruct s; reflexivity.
Qed.

Lemma rev_app_rev_app a : ∀ b c,
  String.rev_app (String.rev_app a b) c = String.rev_app b (String.app a c).
Proof.
  induction a as [|x a IH]; intros b c; [reflexivity|].
  cbn [String.rev_app]. now rewrite IH.
Qed.

(** Reading a word that is being collected. *)
Lemma split_from_word w : ∀ acc s,
  Py.no_space w = true →
  Py.split_from (Some acc) (String.app w s)
  = Py.split_from (Some (String.rev_app w acc)) s.
Proof.
  induction w as [|c w IH]; intros acc s Hw; [reflexivity|].
  cbn [Py.no_space] in Hw. apply andb_true_iff in Hw as [Hc Hw].
  apply negb_true_iff in Hc.
  change (String.app (String c w) s) with (String c (String.app w s)).
  cbn [Py.split_from String.rev_app]. rewrite Hc. now apply IH.
Qed.

Lemma split_word c w :
  Py.no_space (String c w) = true → Py.split (String c w) = [String c w].
Proof.
  intros Hw. pose proof Hw as Hcw.
  cbn [Py.no_space] in Hw. apply andb_true_iff in Hw as [Hc Hw].
  apply negb_true_iff in Hc.
  unfold Py.split. cbn [Py.split_from]. rewrite Hc.
  rewrite <- (app_empty_r w) at 1. rewrite (split_from_word w _ "" Hw).
  cbn [Py.split_from]. unfold String.rev. rewrite rev_app_rev_app.
  cbn [String.rev_app]. now rewrite app_empty_r.
Qed.

Lemma split_two_words c w c' w' :
  Py.no_space (String c w) = true → Py.no_space (String c' w') = true →
  Py.split (String.app (String c w) (String " " (String c' w')))
  = [String c w; String c' w'].
Proof.
  intros Hw Hw'. pose proof (split_word c' w' Hw') as H2.
  cbn [Py.no_space] in Hw. apply andb_true_iff in Hw as [Hc Hw].
  apply negb_true_iff in Hc.
  unfold Py.split in *.
  change (String.app (String c w) (String " " (String c' w')))
    with (String c (String.app w (String " " (String c' w')))).
  cbn [Py.split_from]. rewrite Hc.
  rewrite (split_from_word w _ _ Hw).
  change (Py.split_from (Some (String.rev_app w (String c ""))) (String " " (String c' w')))
    with (String.rev (String.rev_app w (String c ""))
            :: Py.split_from None (String c' w')).
  rewrite H2. unfold String.rev. rewrite rev_app_rev_app.
  cbn [String.rev_app]. now rewrite app_empty_r.
Qed.

Lemma strip_word c w :
  Py.no_space (String c w) = true → Py.strip (String c w) = String c w.
Proof.
  intros Hw. unfold Py.strip. pose proof Hw as Hcw.
  cbn [Py.no_space] in Hw. apply andb_true_iff in Hw as [Hc _].
  apply negb_true_iff in Hc. rewrite (lstrip_word c w Hc).
  exact (rstrip_word "" c w Hcw).
Qed.

Lemma strip_two_words c w c' w' :
  Py.no_space (String c w) = true → Py.no_space (String c' w') = true →
  Py.strip (String.app (String c w) (String " " (String c' w')))
  = String.app (String c w) (String " " (String c' w')).
Proof.
  intros Hw Hw'. unfold Py.strip. pose proof Hw as Hc.
  cbn [Py.no_space] in Hc. apply andb_true_iff in Hc as [Hc _].
  apply negb_true_iff in Hc.
  change (String.app (String c w) (String " " (String c' w')))
    with (String c (String.app w (String " " (String c' w')))).
  rewrite (lstrip_word c _ Hc).
  change (String c (String.app w (String " " (String c' w'))))
    with (String.app (String c w) (String.app " " (String c' w'))).
  rewrite <- app_assoc_str. exact (rstrip_word _ c' w' Hw').
Qed.

(** [int] reads a numeral as the number it denotes. *)
Lemma int_numeral d ds :
  Forall (λ d, (d < 10)%nat) (d :: ds) →
  Py.int (Py.numeral (d :: ds)) = Some (Py.value (d :: ds)).
Proof.
  intros Hds. unfold Py.int.
  cbn [Py.numeral]. rewrite strip_word by exact (no_space_numeral (d :: ds) Hds).
  pose proof (digits_numeral (d :: ds) 0 Hds) as Hdigits.
  cbn [Py.numeral] in Hdigits. fold (Py.value (d :: ds)) in Hdigits.
  apply Forall_cons in Hds as [Hd _].
  do 10 (destruct d as [|d]; [exact Hdigits|]). lia.
Qed.

(** Nothing to replace: the string is left as it is. *)
Lemma replace_absent s find repl :
  find ≠ EmptyString → Py.occurs find s = false → Py.replace s find repl = s.
Proof.
  intros Hfind Habsent. unfold Py.replace.
  destruct find as [|f find]; [congruence|]. clear Hfind.
  induction s as [|c s IH]; [reflexivity|].
  cbn [Py.occurs] in Habsent. apply orb_false_iff in Habsent as [Hhere Hlater].
  cbn [Py.replace_from]. rewrite Hhere. now rewrite (IH Hlater).
Qed.

End PyFacts.

Module RenameViewsFacts.
Import RenameViews PyFacts.

Lemma starred_0 name : starred name 0 = name.
Proof. apply app_empty_r. Qed.

Lemma starred_S name k : starred (String.app name "*") k = starred name (S k).
Proof. unfold starred. rewrite app_assoc_str. reflexivity. Qed.

Lemma candidates_S name k :
  candidates name (S k) = starred name 0 :: candidates (String.app name "*") k.
Proof.
  unfold candidates. simpl. f_equal.
  rewrite <- seq_shift, map_map. apply map_ext. intros j. now rewrite starred_S.
Qed.

(** What the host's check means: another view already has the name. *)
Lemma name_taken_spec (d : Doc) v name :
  name_taken d v name = true ↔ ∃ w, w ≠ v ∧ d !! w = Some name.
Proof.
  unfold name_taken. rewrite existsb_exists. split.
  - intros [[w n] [Hin Hb]]. simpl in Hb.
    apply andb_true_iff in Hb as [Hw Hn].
    apply negb_true_iff, Z.eqb_neq in Hw. apply String.eqb_eq in Hn. subst n.
    exists w. split; [exact Hw|].
    apply elem_of_map_to_list. now apply list_elem_of_In.
  - intros (w & Hw & Hl). exists (w, name). split.
    + apply list_elem_of_In. now apply elem_of_map_to_list.
    + simpl. apply andb_true_iff. split.
      * now apply negb_true_iff, Z.eqb_neq.
      * apply String.eqb_refl.
Qed.

(** An assignment the host accepts keeps the names of the views apart,
    and so does the whole loop. *)
Lemma set_Name_distinct (d : Doc) v name d' :
  distinct_names d → set_Name d v name = Some d' → distinct_names d'.
Proof.
  intros Hd. unfold set_Name.
  destruct (name_taken d v name) eqn:Hfree; [discriminate|]. intros [= <-].
  assert (∀ w, w ≠ v → d !! w ≠ Some name) as Hothers.
  { intros w Hw Hl. assert (name_taken d v name = true) as Ht
      by (apply name_taken_spec; eauto).
    congruence. }
  intros a b n Ha Hb.
  destruct (decide (a = v)) as [->|Hav]; destruct (decide (b = v)) as [->|Hbv];
    [reflexivity | | | ].
  - rewrite lookup_insert_eq in Ha. rewrite lookup_insert_ne in Hb by congruence.
    injection Ha as <-. now destruct (Hothers b Hbv).
  - rewrite lookup_insert_eq in Hb. rewrite lookup_insert_ne in Ha by congruence.
    injection Hb as <-. now destruct (Hothers a Hav).
  - rewrite lookup_insert_ne in Ha, Hb by congruence. eauto.
Qed.

Lemma retry_distinct n : ∀ (d : Doc) v old name,
  distinct_names d → distinct_names (retry n d v old name).1.
Proof.
  induction n as [|n IH]; intros d v old name Hd; [exact Hd|].
  cbn [retry]. destruct (set_Name d v name) as [d'|] eqn:Hset.
  - exact (set_Name_distinct d v name d' Hd Hset).
  - specialize (IH d v old (String.app name "*") Hd).
    now destruct (retry n d v old (String.app name "*")).
Qed.

Lemma rename_loop_distinct r sel : ∀ (d : Doc) d' ev,
  distinct_names d → rename_loop r d sel = Some (d', ev) → distinct_names d'.
Proof.
  induction sel as [|v rest IH]; intros d d' ev Hd Hrun.
  - now injection Hrun as <- <-.
  - cbn [rename_loop] in Hrun. unfold rename_view in Hrun.
    destruct (d !! v) as [old|]; [|discriminate].
    pose proof (retry_distinct 20 d v old (new_name r old) Hd) as H1.
    destruct (retry 20 d v old (new_name r old)) as [d1 e1].
    destruct (rename_loop r d1 rest) as [[d2 e2]|] eqn:H2; [|discriminate].
    injection Hrun as <- <-. exact (IH d1 d2 e2 H1 H2).
Qed.

(** The loop stops at the first candidate the host accepts. *)
Lemma retry_first_accepted n : ∀ (d : Doc) v old name k,
  (k < n)%nat →
  forallb (name_taken d v) (candidates name k) = true →
  name_taken d v (starred name k) = false →
  retry n d v old name =
    (<[v := starred name k]> d,
     map (rejected v) (candidates name k)
       ++ [SetName v (starred name k) true; Print (report old (starred name k))]).
Proof.
  induction n as [|n IH]; intros d v old name k Hk Hrej Hok; [lia|].
  destruct k as [|k].
  - rewrite starred_0 in *. cbn [retry]. unfold set_Name. now rewrite Hok.
  - rewrite candidates_S, starred_0 in *. cbn [forallb] in Hrej.
    apply andb_true_iff in Hrej as [H0 Hrest].
    rewrite <- starred_S in *.
    cbn [retry]. unfold set_Name at 1. rewrite H0.
    now rewrite (IH d v old (String.app name "*") k) by (assumption || lia).
Qed.

(** When the host rejects every candidate the loop runs out. *)
Lemma retry_all_rejected n : ∀ (d : Doc) v old name,
  forallb (name_taken d v) (candidates name n) = true →
  retry n d v old name = (d, map (rejected v) (candidates name n)).
Proof.
  induction n as [|n IH]; intros d v old name Hrej; [reflexivity|].
  rewrite candidates_S, starred_0 in *. cbn [forallb] in Hrej.
  apply andb_true_iff in Hrej as [H0 Hrest].
  cbn [retry]. unfold set_Name at 1. now rewrite H0, (IH _ _ _ _ Hrest).
Qed.

(** Renaming a view leaves the names of the other views alone. *)
Lemma retry_other n : ∀ (d : Doc) v old name w,
  w ≠ v → (retry n d v old name).1 !! w = d !! w.
Proof.
  induction n as [|n IH]; intros d v old name w Hw; [reflexivity|].
  simpl. unfold set_Name. destruct (name_taken d v name).
  - specialize (IH d v old (String.app name "*") w Hw).
    destruct (retry n d v old (String.app name "*")) as [d' ev]. exact IH.
  - simpl. now apply lookup_insert_ne.
Qed.

Lemma rename_view_other r (d : Doc) v d' ev w :
  rename_view r d v = Some (d', ev) → w ≠ v → d' !! w = d !! w.
Proof.
  unfold rename_view. destruct (d !! v) as [old|]; [|discriminate].
  intros Hrun Hw.
  assert (retry 20 d v old (new_name r old) = (d', ev)) as Hrun' by congruence.
  pose proof (retry_other 20 d v old (new_name r old) w Hw) as H.
  rewrite Hrun' in H. exact H.
Qed.

Lemma rename_loop_other r sel : ∀ (d : Doc) d' ev w,
  rename_loop r d sel = Some (d', ev) → w ∉ sel → d' !! w = d !! w.
Proof.
  induction sel as [|v rest IH]; intros d d' ev w Hrun Hw.
  - now injection Hrun as <- <-.
  - simpl in Hrun.
    destruct (rename_view r d v) as [[d1 e1]|] eqn:H1; [|discriminate].
    destruct (rename_loop r d1 rest) as [[d2 e2]|] eqn:H2; [|discriminate].
    injection Hrun as <- <-.
    apply not_elem_of_cons in Hw as [Hwv Hwr].
    rewrite (IH _ _ _ _ H2 Hwr). eapply rename_view_other; eassumption.
Qed.

(** The loop over [pre ++ post] is the loop over [pre], then over [post]. *)
Lemma rename_loop_app r pre : ∀ (d : Doc) post,
  rename_loop r d (pre ++ post) =
    match rename_loop r d pre with
    | Some (d1, e1) =>
        match rename_loop r d1 post with
        | Some (d2, e2) => Some (d2, e1 ++ e2)
        | None => None
        end
    | None => None
    end.
Proof.
  induction pre as [|v pre IH]; intros d post; simpl.
  - destruct (rename_loop r d post) as [[d2 e2]|]; reflexivity.
  - destruct (rename_view r d v) as [[d1 e1]|]; [|reflexivity].
    rewrite IH. destruct (rename_loop r d1 pre) as [[d2 e2]|]; [|reflexivity].
    destruct (rename_loop r d2 post) as [[d3 e3]|]; [|reflexivity].
    now rewrite app_assoc.
Qed.

Lemma str_mul_snoc k : String.app (Py.str_mul "*" k) "*" = Py.str_mul "*" (S k).
Proof.
  induction k as [|k IH]; [reflexivity|].
  change (Py.str_mul "*" (S k)) with (String.app "*" (Py.str_mul "*" k)) at 1.
  rewrite app_assoc_str, IH. reflexivity.
Qed.

Lemma starred_snoc name k : starred name (S k) = String.app (starred name k) "*".
Proof. unfold starred. now rewrite app_assoc_str, str_mul_snoc. Qed.

(** C1: a view that is selected once, and whose computed name no other
    view has when its turn comes, is called
    [prefix + oldName.replace(find, replace) + suffix] when the procedure
    is over, and that is the name printed for it; the rule of the example
    turns "FloorPlan 1" into "L-Level 1". *)
Theorem rename_unique_candidate r (d : Doc) pre v post old d1 e1 d2 e2 :
  v ∉ pre → v ∉ post →
  d !! v = Some old →
  rename_loop r d pre = Some (d1, e1) →
  name_taken d1 v (new_name r old) = false →
  rename_loop r d (pre ++ v :: post) = Some (d2, e2) →
  d2 !! v = Some (new_name r old)
  ∧ Print (report old (new_name r old)) ∈ e2
  ∧ new_name floorplan_rule "FloorPlan 1" = "L-Level 1".
Proof.
  intros Hpre Hpost Hold H1 Hfree Hrun.
  rewrite rename_loop_app, H1 in Hrun.
  destruct (rename_loop r d1 (v :: post)) as [[d3 e3]|] eqn:H3; [|discriminate].
  injection Hrun as <- <-.
  cbn [rename_loop] in H3. unfold rename_view in H3.
  rewrite (rename_loop_other _ _ _ _ _ _ H1 Hpre), Hold in H3.
  rewrite (retry_first_accepted 20 d1 v old (new_name r old) 0) in H3;
    [| lia | reflexivity | now rewrite starred_0].
  rewrite starred_0 in H3. cbn [candidates seq map app] in H3.
  destruct (rename_loop r (<[v:=new_name r old]> d1) post) as [[d4 e4]|] eqn:H4;
    [|discriminate].
  injection H3 as <- <-.
  split; [|split].
  - rewrite (rename_loop_other _ _ _ _ _ _ H4 Hpost). apply lookup_insert_eq.
  - apply elem_of_app. right.
    apply elem_of_cons. right. apply elem_of_cons. now left.
  - reflexivity.
Qed.

Lemma rename_unique_candidate_witness :
  ∃ d2 e2,
    rename_loop floorplan_rule (<[1 := "FloorPlan 1"]> (<[2 := "Section A"]> ∅)) [2; 1]
      = Some (d2, e2)
    ∧ d2 !! 1 = Some "L-Level 1".
Proof.
  eexists _, _. split; [vm_compute; reflexivity|].
  refine (proj1 (rename_unique_candidate floorplan_rule
            (<[1 := "FloorPlan 1"]> (<[2 := "Section A"]> ∅))
            [2] 1 [] "FloorPlan 1"
            (<[1 := "FloorPlan 1"]> (<[2 := "L-Section A"]> ∅))
            [SetName 2 "L-Section A" true; Print "Section A -> L-Section A"]
            _ _ _ _ _ _ _ _)).
  - apply (bool_decide_unpack _). vm_compute. exact I.
  - apply (bool_decide_unpack _). vm_compute. exact I.
  - vm_compute. reflexivity.
  - vm_compute. reflexivity.
  - vm_compute. reflexivity.
  - vm_compute. reflexivity.
Defined.



(** C7: when the host rejects all twenty candidates of a view, its loop
    ends without an exception and without a line printed or an alert,
    the view keeps its name, and the procedure goes on with the views
    that follow. *)
Theorem retry_exhausted_is_silent r (d : Doc) v old rest :
  d !! v = Some old →
  forallb (name_taken d v) (candidates (new_name r old) 20) = true →
  rename_view r d v
    = Some (d, map (rejected v) (candidates (new_name r old) 20))
  ∧ rename_loop r d (v :: rest)
    = match rename_loop r d rest with
      | Some (d2, e2) =>
          Some (d2, map (rejected v) (candidates (new_name r old) 20) ++ e2)
      | None => None
      end
  ∧ (∀ d2 e2, v ∉ rest → rename_loop r d (v :: rest) = Some (d2, e2) →
              d2 !! v = Some old).
Proof.
  intros Hold Hrej.
  assert (rename_view r d v
          = Some (d, map (rejected v) (candidates (new_name r old) 20))) as Hv.
  { unfold rename_view. rewrite Hold. f_equal. now apply retry_all_rejected. }
  split; [exact Hv|]. split.
  - cbn [rename_loop]. now rewrite Hv.
  - intros d2 e2 Hnot Hrun. cbn [rename_loop] in Hrun. rewrite Hv in Hrun.
    destruct (rename_loop r d rest) as [[d3 e3]|] eqn:H3; [|discriminate].
    injection Hrun as <- <-.
    now rewrite (rename_loop_other _ _ _ _ _ _ H3 Hnot).
Qed.

Lemma retry_exhausted_is_silent_witness :
  rename_view (mkRule "" "B" "C" "") crowded 0
    = Some (crowded, map (rejected 0) (candidates "A" 20)).
Proof.
  refine (proj1 (retry_exhausted_is_silent (mkRule "" "B" "C" "") crowded 0 "A" [] _ _)).
  - vm_compute. reflexivity.
  - vm_compute. reflexivity.
Defined.

(** C8: with no view in the selection and none from the picker, the
    script alerts the user and exits; it starts no transaction and the
    document is the one it was given. *)
Theorem no_views_aborts (d : Doc) selection picked user_inputs :
  selected_views d selection = [] →
  picked = None ∨ picked = Some [] →
  script d selection picked user_inputs
    = (d, [Alert "No Views Selected. Please Try Again"], Exited)
  ∧ (∀ name, TxStart name ∉ (script d selection picked user_inputs).1.2)
  ∧ (∀ v name ok, SetName v name ok ∉ (script d selection picked user_inputs).1.2).
Proof.
  intros Hsel Hpick.
  assert (script d selection picked user_inputs
          = (d, [Alert "No Views Selected. Please Try Again"], Exited)) as Hs.
  { unfold script. rewrite Hsel. now destruct Hpick as [-> | ->]. }
  rewrite Hs. split; [reflexivity|]. split.
  - intros name [H|H]%elem_of_cons; [discriminate | inversion H].
  - intros v name ok [H|H]%elem_of_cons; [discriminate | inversion H].
Qed.

Lemma no_views_aborts_witness :
  script two_plans [7; 8] (Some []) (Some floorplan_rule)
    = (two_plans, [Alert "No Views Selected. Please Try Again"], Exited).
Proof.
  refine (proj1 (no_views_aborts two_plans [7; 8] (Some [])
                   (Some floorplan_rule) _ _)).
  - vm_compute. reflexivity.
  - right. reflexivity.
Defined.

End RenameViewsFacts.

Module InsertRebarFacts.
Import InsertRebar Binary64.

Section AnyNumbers.
Context {F : Type} {number : Number F}.
Variable raises : list (Event F) → Call F → option string.
Local Open Scope number_scope.

(** *** The computations *)

Lemma bind_returned {A B} (m : M A) (f : A → M B) (past ev : list (Event F)) b :
  bind m f past = (ev, Returned b) →
  ∃ ev1 a ev2,
    m past = (ev1, Returned a) ∧ f a (past ++ ev1) = (ev2, Returned b)
    ∧ ev = ev1 ++ ev2.
Proof.
  unfold bind. destruct (m past) as [ev1 [a|message]]; [|discriminate].
  destruct (f a (past ++ ev1)) as [ev2 r] eqn:Hf.
  intros [= <- ->]. exists ev1, a, ev2. auto.
Qed.

Lemma call_returned c (past ev : list (Event F)) u :
  call raises c past = (ev, Returned u) → ev = [Called c].
Proof.
  unfold call. destruct (raises past c); [discriminate|]. now intros [= <- _].
Qed.

Lemma with_Transaction_returned {A} (block : M A) (past ev : list (Event F)) a :
  with_Transaction block past = (ev, Returned a) →
  ∃ ev1, block past = (ev1, Returned a) ∧ ev = ev1 ++ [Dispose].
Proof.
  unfold with_Transaction. destruct (block past) as [ev1 r].
  intros [= <- ->]. now exists ev1.
Qed.

Lemma create_rebar_returned rebar_type host norm ends (past ev : list (Event F)) u :
  create_rebar raises rebar_type host norm ends past = (ev, Returned u) →
  ev = bar_calls rebar_type host norm ends.
Proof.
  unfold create_rebar. intros (ev1 & [] & ev2 & H1 & H2 & ->)%bind_returned.
  apply call_returned in H1 as ->. apply call_returned in H2 as ->. reflexivity.
Qed.

(** A loop of bars that ends without an exception has made the two calls
    of every bar, in order. *)
Lemma for_each_bars_returned rebar_type host norm (line : Z → XYZ F * XYZ F) l :
  ∀ (past ev : list (Event F)) u,
    for_each l (λ i, create_rebar raises rebar_type host norm (line i)) past
      = (ev, Returned u) →
    ev = flat_map (λ i, bar_calls rebar_type host norm (line i)) l.
Proof.
  induction l as [|i l IH]; intros past ev u Hrun.
  - cbn in Hrun. now injection Hrun as <-.
  - cbn [for_each] in Hrun.
    apply bind_returned in Hrun as (ev1 & [] & ev2 & H1 & H2 & ->).
    apply create_rebar_returned in H1 as ->. apply IH in H2 as ->. reflexivity.
Qed.

(** *** What every event of a computation satisfies *)

Lemma bind_Forall {A B} (P : Event F → Prop) (m : M A) (f : A → M B) :
  (∀ past, Forall P (m past).1) → (∀ a past, Forall P (f a past).1) →
  ∀ past, Forall P (bind m f past).1.
Proof.
  intros Hm Hf past. unfold bind. specialize (Hm past).
  destruct (m past) as [ev1 [a|message]]; [|exact Hm].
  specialize (Hf a (past ++ ev1)). destruct (f a (past ++ ev1)) as [ev2 r].
  apply Forall_app. split; assumption.
Qed.

Lemma call_Forall (P : Event F → Prop) c :
  P (Called c) → ∀ past, Forall P (call raises c past).1.
Proof.
  intros Hc past. unfold call.
  destruct (raises past c); repeat constructor; exact Hc.
Qed.

Lemma for_each_Forall {A} (P : Event F → Prop) (body : A → M unit) l :
  (∀ a past, Forall P (body a past).1) →
  ∀ past, Forall P (for_each l body past).1.
Proof.
  intros Hbody. induction l as [|a l IH]; intros past.
  - constructor.
  - cbn [for_each]. apply bind_Forall; [apply Hbody | intros _; apply IH].
Qed.

Lemma with_Transaction_Forall {A} (P : Event F → Prop) (block : M A) :
  P Dispose → (∀ past, Forall P (block past).1) →
  ∀ past, Forall P (with_Transaction block past).1.
Proof.
  intros Hd Hb past. unfold with_Transaction. specialize (Hb past).
  destruct (block past) as [ev r]. apply Forall_app. split; [exact Hb|].
  repeat constructor. exact Hd.
Qed.

Lemma create_rebar_Forall (P : Event F → Prop) rebar_type host norm ends :
  Forall P (bar_calls rebar_type host norm ends) →
  ∀ past, Forall P (create_rebar raises rebar_type host norm ends past).1.
Proof.
  intros Hb. unfold bar_calls in Hb.
  apply Forall_cons in Hb as [H1 Hb]. apply Forall_cons in Hb as [H2 _].
  unfold create_rebar. apply bind_Forall; [|intros _]; now apply call_Forall.
Qed.

(** *** Counting *)

Lemma range_length n : length (Py.range n) = Z.to_nat n.
Proof. unfold Py.range. now rewrite length_map, length_seq. Qed.

Lemma range_lookup n k :
  (k < Z.to_nat n)%nat → Py.range n !! k = Some (Z.of_nat k).
Proof.
  intros Hk. unfold Py.range.
  change (map Z.of_nat (seq 0 (Z.to_nat n))) with (Z.of_nat <$> seq 0 (Z.to_nat n)).
  rewrite list_lookup_fmap, lookup_seq_lt by exact Hk. reflexivity.
Qed.

Lemma creates_of_bars rebar_type host norm (line : Z → XYZ F * XYZ F) l :
  length (List.filter is_create
            (flat_map (λ i, bar_calls rebar_type host norm (line i)) l))
  = length l.
Proof. induction l as [|i l IH]; [reflexivity|]. cbn. now rewrite IH. Qed.

(** *** The placement loop *)

Lemma placement_loop_outcomes elements rebar_type vertical horizontal :
  ∀ past,
    placement_loop raises elements rebar_type vertical horizontal past
    = (concat (map fst (outcomes raises elements rebar_type vertical horizontal past)),
       Z.of_nat (length (List.filter snd
                  (outcomes raises elements rebar_type vertical horizontal past))))
    ∧ length (outcomes raises elements rebar_type vertical horizontal past)
      = length elements.
Proof.
  induction elements as [|element rest IH]; intros past; [now split|].
  cbn [placement_loop outcomes].
  destruct (place_rebars raises element rebar_type vertical horizontal past)
    as [ev ok] eqn:Hp.
  destruct (IH (past ++ ev)) as [-> Hlen]. cbn [fst snd map concat List.filter length].
  split; [|now rewrite Hlen].
  f_equal. destruct ok; cbn [length]; lia.
Qed.

(** C9: a placement that succeeds has issued, between the start and the
    commit of its transaction, the bars of the vertical loop and then
    those of the horizontal loop: [vertical + horizontal] create-rebar
    calls.  The line of a vertical bar runs along Z at its own X, the line
    of a horizontal bar runs along X at its own Z. *)
Theorem successful_placement_creates_all_bars
        element rebar_type vertical horizontal past ev :
  (0 ≤ vertical)%Z → (0 ≤ horizontal)%Z →
  place_rebars raises element rebar_type vertical horizontal past = (ev, true) →
  ∃ bbox,
    BoundingBox element = Some bbox
    ∧ ev = Called (get_BoundingBox (Id element)) :: Called (Start "Place Rebars")
           :: flat_map (λ i, bar_calls rebar_type (Id element) BasisX
                               (vertical_line bbox
                                  (spacing (X (Max bbox) - X (Min bbox)) vertical) i))
                       (Py.range vertical)
           ++ flat_map (λ i, bar_calls rebar_type (Id element) BasisZ
                               (horizontal_line bbox
                                  (spacing (Z_ (Max bbox) - Z_ (Min bbox)) horizontal) i))
                       (Py.range horizontal)
           ++ [Called Commit; Dispose]
    ∧ Z.of_nat (length (List.filter is_create ev)) = (vertical + horizontal)%Z
    ∧ (∀ s i, X (fst (vertical_line bbox s i)) = X (snd (vertical_line bbox s i))
              ∧ Y (fst (vertical_line bbox s i)) = Y (snd (vertical_line bbox s i))
              ∧ Z_ (fst (vertical_line bbox s i)) = Z_ (Min bbox) + SNI_COVER
              ∧ Z_ (snd (vertical_line bbox s i)) = Z_ (Max bbox) - SNI_COVER)
    ∧ (∀ s i, Z_ (fst (horizontal_line bbox s i)) = Z_ (snd (horizontal_line bbox s i))
              ∧ Y (fst (horizontal_line bbox s i)) = Y (snd (horizontal_line bbox s i))
              ∧ X (fst (horizontal_line bbox s i)) = X (Min bbox) + SNI_COVER
              ∧ X (snd (horizontal_line bbox s i)) = X (Max bbox) - SNI_COVER).
Proof.
  intros Hv Hh Hrun. unfold place_rebars in Hrun.
  destruct (place_rebars_try raises element rebar_type vertical horizontal past)
    as [ev' [ok|message]] eqn:Htry; [|discriminate].
  injection Hrun as -> ->.
  unfold place_rebars_try in Htry.
  apply bind_returned in Htry as (ev1 & [] & ev2 & Hc & Hrest & ->).
  apply call_returned in Hc as ->.
  destruct (BoundingBox element) as [bbox|]; [|discriminate].
  exists bbox. split; [reflexivity|].
  apply bind_returned in Hrest as (ev3 & [] & ev4 & Hwith & Hret & ->).
  injection Hret as <-.
  apply with_Transaction_returned in Hwith as (ev5 & Hblock & ->).
  apply bind_returned in Hblock as (e1 & [] & e2 & Hs & Hblock & ->).
  apply call_returned in Hs as ->.
  apply bind_returned in Hblock as (e3 & [] & e4 & Hvs & Hblock & ->).
  apply for_each_bars_returned in Hvs as ->.
  apply bind_returned in Hblock as (e5 & [] & e6 & Hhs & Hcommit & ->).
  apply for_each_bars_returned in Hhs as ->.
  apply call_returned in Hcommit as ->.
  split; [|split; [|split]].
  - cbn [app]. rewrite app_nil_r, <- !app_assoc. reflexivity.
  - cbn [app]. rewrite app_nil_r. cbn [List.filter is_create].
    rewrite !List.filter_app, !length_app, !creates_of_bars, !range_length.
    cbn. lia.
  - intros s i. now repeat split.
  - intros s i. now repeat split.
Qed.

(** C10: whatever the host does, every line of an element, vertical or
    horizontal, has both its ends at [Y = Min.Y + SNI_COVER]. *)
Theorem bars_lie_in_one_plane element rebar_type vertical horizontal past bbox :
  BoundingBox element = Some bbox →
  Forall (in_plane (Y (Min bbox) + SNI_COVER))
         (place_rebars raises element rebar_type vertical horizontal past).1
  ∧ (∀ s i, Y (fst (vertical_line bbox s i)) = Y (Min bbox) + SNI_COVER
            ∧ Y (snd (vertical_line bbox s i)) = Y (Min bbox) + SNI_COVER)
  ∧ (∀ s i, Y (fst (horizontal_line bbox s i)) = Y (Min bbox) + SNI_COVER
            ∧ Y (snd (horizontal_line bbox s i)) = Y (Min bbox) + SNI_COVER).
Proof.
  intros Hbox. split; [|now split].
  assert (∀ p, Forall (in_plane (Y (Min bbox) + SNI_COVER))
                 (place_rebars_try raises element rebar_type vertical horizontal p).1)
    as Htry.
  { unfold place_rebars_try. rewrite Hbox.
    apply bind_Forall; [now apply call_Forall | intros _].
    apply bind_Forall; [|intros _ p; constructor].
    apply with_Transaction_Forall; [exact I|].
    apply bind_Forall; [now apply call_Forall | intros _].
    apply bind_Forall; [|intros _].
    { apply for_each_Forall. intros i. apply create_rebar_Forall.
      repeat constructor. }
    apply bind_Forall; [|intros _; now apply call_Forall].
    apply for_each_Forall. intros i. apply create_rebar_Forall.
    repeat constructor. }
  unfold place_rebars. specialize (Htry past).
  destruct (place_rebars_try raises element rebar_type vertical horizontal past)
    as [ev [ok|message]]; [exact Htry|].
  apply Forall_app. split; [exact Htry|]. repeat constructor.
Qed.

(** C5: an element without a bounding box is skipped, no bar is created
    for it and [place_rebars] returns [False]; an exception in the
    processing of an element is caught and logged and makes the call return
    [False]; the loop hands every element to [place_rebars] whatever the
    earlier ones did, and counts those for which it returned [True]; the
    summary shows that count and the number of filtered elements. *)
Theorem placement_failures_are_isolated rebar_type vertical horizontal :
  (∀ element past,
      BoundingBox element = None →
      (place_rebars raises element rebar_type vertical horizontal past).2 = false
      ∧ Forall (λ e, is_mutation e = false)
               (place_rebars raises element rebar_type vertical horizontal past).1
      ∧ (raises past (get_BoundingBox (Id element)) = None →
         place_rebars raises element rebar_type vertical horizontal past
         = ([Called (get_BoundingBox (Id element)); PrintSkipping (Id element)],
            false)))
  ∧ (∀ element past ev message,
        place_rebars_try raises element rebar_type vertical horizontal past
          = (ev, Raised message) →
        place_rebars raises element rebar_type vertical horizontal past
          = (ev ++ [PrintFailed (Id element) message], false))
  ∧ (∀ elements past,
        placement_loop raises elements rebar_type vertical horizontal past
        = (concat (map fst (outcomes raises elements rebar_type vertical horizontal past)),
           Z.of_nat (length (List.filter snd
                      (outcomes raises elements rebar_type vertical horizontal past))))
        ∧ length (outcomes raises elements rebar_type vertical horizontal past)
          = length elements)
  ∧ (∀ doc selection rebar_types c name input elements,
        get_valid_elements doc selection = Returned elements →
        find_type rebar_types (String c name) = Some rebar_type →
        get_rebar_counts input = Returned (vertical, horizontal) →
        main raises doc selection rebar_types (Some (String c name)) input
        = ((placement_loop raises elements rebar_type vertical horizontal []).1
             ++ [Summary
                   (placement_loop raises elements rebar_type vertical horizontal []).2
                   (Z.of_nat (length elements)) vertical horizontal],
           Completed)).
Proof.
  split; [|split; [|split]].
  - intros element past Hbox.
    unfold place_rebars, place_rebars_try, bind, call, emit, ret. rewrite Hbox.
    destruct (raises past (get_BoundingBox (Id element))); cbn.
    + split; [reflexivity|]. split; [repeat constructor | discriminate].
    + split; [reflexivity|]. split; [repeat constructor | reflexivity].
  - intros element past ev message Htry. unfold place_rebars. now rewrite Htry.
  - intros elements past. apply placement_loop_outcomes.
  - intros doc selection rebar_types c name input elements Hvalid Htype Hcounts.
    unfold main. rewrite Hvalid, Htype, Hcounts.
    now destruct (placement_loop raises elements rebar_type vertical horizontal []).
Qed.

(** *** The spacing *)

Lemma spacing_many (extent : F) count :
  (1 < count)%Z →
  spacing extent count = (extent - of_int 2 * SNI_COVER) / of_int (count - 1).
Proof.
  intros Hc. unfold spacing.
  destruct (Z.ltb_spec 1 count) as [_|]; [|lia].
  now replace (Z.max 1 (count - 1)) with (count - 1)%Z by lia.
Qed.

(** *** Selection and input *)

Lemma valid_elements_filter (doc : gmap Z (Element F)) selection :
  valid_elements doc selection
  = List.filter passes_filter (omap (λ elem_id, doc !! elem_id) selection).
Proof.
  induction selection as [|elem_id rest IH]; [reflexivity|].
  cbn [valid_elements omap list_omap].
  destruct (doc !! elem_id) as [element|]; [|exact IH].
  cbn [List.filter]. unfold passes_filter at 1.
  unfold isinstance_FamilyInstance_Wall_Floor, WallType.
  destruct (class element) as [st|kind| |]; try (now rewrite IH).
  destruct kind; cbn; now rewrite IH.
Qed.

(** The filter as it is written: it keeps, in the order of the selection,
    the selected elements that are a family instance of any kind, a wall
    of the basic kind, or a floor; when none is left the script alerts the
    user and exits with nothing else done. *)
Theorem filter_keeps_instances_basic_walls_floors
        (doc : gmap Z (Element F)) selection :
  valid_elements doc selection
  = List.filter passes_filter (omap (λ elem_id, doc !! elem_id) selection)
  ∧ (∀ element,
        element ∈ valid_elements doc selection ↔
        (∃ elem_id, elem_id ∈ selection ∧ doc !! elem_id = Some element)
        ∧ ((∃ st, class element = FamilyInstance st)
           ∨ class element = Wall Basic
           ∨ class element = Floor))
  ∧ (∀ elements,
        get_valid_elements doc selection = Returned elements →
        elements = valid_elements doc selection ∧ elements ≠ [])
  ∧ (valid_elements doc selection = [] →
     ∀ rebar_types rebar_type_name input,
       main raises doc selection rebar_types rebar_type_name input
       = ([Alert "No valid structural elements selected!"], Exited)).
Proof.
  split; [apply valid_elements_filter|]. split; [|split].
  - intros element. rewrite valid_elements_filter.
    rewrite list_elem_of_In, filter_In, <- list_elem_of_In, list_elem_of_omap.
    unfold passes_filter. split.
    + intros [Hsel Hclass]. split; [exact Hsel|].
      destruct (class element) as [st|kind| |]; try discriminate; eauto.
      destruct kind; try discriminate. auto.
    + intros [Hsel Hclass]. split; [exact Hsel|].
      destruct Hclass as [[st ->] | [-> | ->]]; reflexivity.
  - intros elements. unfold get_valid_elements.
    destruct (valid_elements doc selection); [discriminate|].
    intros [= <-]. split; [reflexivity | discriminate].
  - intros Hnone rebar_types rebar_type_name input.
    unfold main, get_valid_elements. now rewrite Hnone.
Qed.

Lemma get_rebar_counts_text c text :
  get_rebar_counts (Some (String c text))
  = match parse_counts (String c text) with
    | Some counts => Returned counts
    | None => Raised format_message
    end.
Proof. reflexivity. Qed.

(** The answer "V" and the answer "V H" written as decimal numerals. *)
Lemma counts_of_numeral d ds :
  Forall (λ d, (d < 10)%nat) (d :: ds) →
  get_rebar_counts (Some (Py.numeral (d :: ds)))
  = Returned (Z.max 1 (Py.value (d :: ds)), Z.max 1 (Py.value (d :: ds))).
Proof.
  intros Hds. pose proof (PyFacts.no_space_numeral _ Hds) as Hw.
  pose proof (PyFacts.int_numeral d ds Hds) as Hint.
  cbn [Py.numeral] in *. rewrite get_rebar_counts_text. unfold parse_counts.
  rewrite PyFacts.strip_word, PyFacts.split_word by exact Hw.
  now rewrite Hint.
Qed.

Lemma counts_of_two_numerals d ds d' ds' :
  Forall (λ d, (d < 10)%nat) (d :: ds) →
  Forall (λ d, (d < 10)%nat) (d' :: ds') →
  get_rebar_counts
    (Some (String.app (Py.numeral (d :: ds)) (String " " (Py.numeral (d' :: ds')))))
  = Returned (Z.max 1 (Py.value (d :: ds)), Z.max 1 (Py.value (d' :: ds'))).
Proof.
  intros Hds Hds'.
  pose proof (PyFacts.no_space_numeral _ Hds) as Hw.
  pose proof (PyFacts.no_space_numeral _ Hds') as Hw'.
  pose proof (PyFacts.int_numeral d ds Hds) as Hint.
  pose proof (PyFacts.int_numeral d' ds' Hds') as Hint'.
  cbn [Py.numeral] in *.
  change (String.app (String (Py.digit_char d) (Py.numeral ds)) ?r)
    with (String (Py.digit_char d) (String.app (Py.numeral ds) r)).
  rewrite get_rebar_counts_text. unfold parse_counts.
  change (String (Py.digit_char d) (String.app (Py.numeral ds) ?r))
    with (String.app (String (Py.digit_char d) (Py.numeral ds)) r).
  rewrite PyFacts.strip_two_words, PyFacts.split_two_words by assumption.
  now rewrite Hint, Hint'.
Qed.

(** C4, as the prompt is handled: an answer that is not empty and whose
    only token is the integer [V] gives [(max(1,V), max(1,V))]; one whose
    first two tokens are the integers [V] and [H] gives
    [(max(1,V), max(1,H))]; so do the decimal numeral of [V], and the
    numerals of [V] and [H] with a space between; both counts are at least
    1; an answer that is
    not empty and that the parser rejects ends the script with the format
    message, an empty or dismissed one with "No input provided!"; either
    way the script has called nothing of the host. *)
Theorem counts_parsed_or_script_exits :
  (∀ c text part V,
      Py.split (Py.strip (String c text)) = [part] → Py.int part = Some V →
      get_rebar_counts (Some (String c text)) = Returned (Z.max 1 V, Z.max 1 V))
  ∧ (∀ c text part0 part1 rest V H,
        Py.split (Py.strip (String c text)) = part0 :: part1 :: rest →
        Py.int part0 = Some V → Py.int part1 = Some H →
        get_rebar_counts (Some (String c text)) = Returned (Z.max 1 V, Z.max 1 H))
  ∧ (∀ d ds,
        Forall (λ d, (d < 10)%nat) (d :: ds) →
        get_rebar_counts (Some (Py.numeral (d :: ds)))
        = Returned (Z.max 1 (Py.value (d :: ds)), Z.max 1 (Py.value (d :: ds))))
  ∧ (∀ d ds d' ds',
        Forall (λ d, (d < 10)%nat) (d :: ds) →
        Forall (λ d, (d < 10)%nat) (d' :: ds') →
        get_rebar_counts
          (Some (String.app (Py.numeral (d :: ds))
                            (String " " (Py.numeral (d' :: ds')))))
        = Returned (Z.max 1 (Py.value (d :: ds)), Z.max 1 (Py.value (d' :: ds'))))
  ∧ (∀ input vertical horizontal,
        get_rebar_counts input = Returned (vertical, horizontal) →
        (1 ≤ vertical)%Z ∧ (1 ≤ horizontal)%Z)
  ∧ (∀ c text,
        parse_counts (String c text) = None →
        get_rebar_counts (Some (String c text)) = Raised format_message)
  ∧ get_rebar_counts (Some "") = Raised no_input_message
  ∧ get_rebar_counts None = Raised no_input_message
  ∧ (∀ doc selection rebar_types rebar_type_name input msg,
        get_rebar_counts input = Raised msg →
        Forall (λ e, is_Alert e = true)
               (main raises doc selection rebar_types rebar_type_name input).1
        ∧ (main raises doc selection rebar_types rebar_type_name input).2 = Exited).
Proof.
  split; [|split; [|split; [|split; [|split; [|split; [|split; [|split]]]]]]].
  - intros c text part V Hsplit Hint.
    rewrite get_rebar_counts_text. unfold parse_counts. now rewrite Hsplit, Hint.
  - intros c text part0 part1 rest V H Hsplit H0 H1.
    rewrite get_rebar_counts_text. unfold parse_counts.
    now rewrite Hsplit, H0, H1.
  - apply counts_of_numeral.
  - apply counts_of_two_numerals.
  - intros input vertical horizontal.
    destruct input as [[|c text]|]; try discriminate.
    rewrite get_rebar_counts_text. unfold parse_counts.
    destruct (Py.split (Py.strip (String c text))) as [|part0 rest];
      [discriminate|].
    destruct (Py.int part0) as [V|]; [|discriminate].
    destruct rest as [|part1 rest].
    + intros [= <- <-]. lia.
    + destruct (Py.int part1) as [H|]; [|discriminate]. intros [= <- <-]. lia.
  - intros c text Hnone. rewrite get_rebar_counts_text. now rewrite Hnone.
  - reflexivity.
  - reflexivity.
  - intros doc selection rebar_types rebar_type_name input msg Hraised.
    unfold main.
    destruct (get_valid_elements doc selection) as [elements|m];
      [|split; [repeat constructor | reflexivity]].
    destruct rebar_type_name as [[|c name]|];
      try (split; [repeat constructor | reflexivity]).
    destruct (find_type rebar_types (String c name));
      [|split; [repeat constructor | reflexivity]].
    rewrite Hraised. split; [repeat constructor | reflexivity].
Qed.

End AnyNumbers.

(** *** Runs of the script *)

Lemma successful_placement_creates_all_bars_witness :
  Z.of_nat (length (List.filter is_create (place_rebars obliging slab 99 3 1 []).1))
  = 4%Z.
Proof.
  destruct (successful_placement_creates_all_bars obliging slab 99 3 1 []
              (place_rebars obliging slab 99 3 1 []).1
              ltac:(lia) ltac:(lia) ltac:(vm_compute; reflexivity))
    as (bbox & _ & _ & Hcount & _).
  exact Hcount.
Defined.

Lemma bars_lie_in_one_plane_witness :
  Forall (in_plane (Y (Min unit_box) + SNI_COVER)%num)
         (place_rebars (refusing 7) slab 99 2 2 []).1.
Proof.
  exact (proj1 (bars_lie_in_one_plane (refusing 7) slab 99 2 2 [] unit_box eq_refl)).
Defined.

Lemma placement_failures_are_isolated_witness :
  place_rebars obliging ghost 99 2 2 []
  = ([Called (get_BoundingBox 8); PrintSkipping 8], false).
Proof.
  destruct (placement_failures_are_isolated (obliging (F := float)) 99 2 2)
    as (Hskip & _).
  destruct (Hskip ghost [] eq_refl) as (_ & _ & H). exact (H eq_refl).
Defined.

(** A door that the host refuses to reinforce, a slab and a column
    without a bounding box: one success out of three, and the script goes
    on to its summary. *)
Example one_of_three :
  main (refusing 5) model [5; 6; 7; 8; 9] [(98, "T8"); (99, "T10")] (Some "T10")
       (Some "2")
  = ((place_rebars (refusing 5) door 99 2 2 []).1
       ++ (place_rebars obliging slab 99 2 2 []).1
       ++ [Called (get_BoundingBox 8); PrintSkipping 8; Summary 1 3 2 2],
     Completed)
  ∧ (place_rebars (refusing 5) door 99 2 2 []).2 = false
  ∧ last (place_rebars (refusing 5) door 99 2 2 []).1
    = Some (PrintFailed 5 "cannot host rebar").
Proof. split; [|split]; vm_compute; reflexivity. Qed.

Lemma counts_parsed_or_script_exits_witness :
  get_rebar_counts (Some "3") = Returned (3, 3)%Z
  ∧ get_rebar_counts (Some "0 5") = Returned (1, 5)%Z
  ∧ get_rebar_counts (Some "abc") = Raised format_message.
Proof.
  destruct (counts_parsed_or_script_exits (obliging (F := float)))
    as (Hone & Htwo & _ & _ & _ & Hbad & _).
  split; [|split].
  - exact (Hone "3"%char "" "3" 3%Z eq_refl eq_refl).
  - exact (Htwo "0"%char " 5" "0" "5" [] 0%Z 5%Z eq_refl eq_refl eq_refl).
  - exact (Hbad "a"%char "bc" eq_refl).
Defined.

(** The empty answer is rejected by the parser too, but the script ends
    with the other message. *)
Lemma empty_answer_gets_another_message :
  parse_counts "" = None
  ∧ get_rebar_counts (Some "") = Raised no_input_message
  ∧ get_rebar_counts (Some "") ≠ Raised format_message.
Proof. split; [reflexivity|]. split; [reflexivity|]. discriminate. Qed.

Lemma filter_keeps_instances_basic_walls_floors_witness :
  main obliging model [6; 9] [(99, "T10")] (Some "T10") (Some "2")
  = ([Alert "No valid structural elements selected!"], Exited).
Proof.
  exact (proj2 (proj2 (proj2 (filter_keeps_instances_basic_walls_floors
                                obliging model [6; 9])))
               eq_refl [(99, "T10")] (Some "T10") (Some "2")).
Defined.

(** C6: the filter is to keep the elements that can host rebar, as the
    docstring of [get_valid_elements] and the comment of line 53 say: the
    structural family instances, the walls of the basic kind and the
    floors.  Line 54 tests the class only, and walls alone are looked at
    further.  With a door selected, a family instance that is not
    structural, the filter keeps the door, no alert is shown and the script
    goes on to its summary; the filter of the specification keeps the slab
    of the selection and not the door. *)
Theorem nonstructural_family_instance_passes :
  class door = FamilyInstance NonStructural
  ∧ is_structural NonStructural = false
  ∧ spec_filter door = false
  ∧ valid_elements model [5] = [door]
  ∧ get_valid_elements model [5] = Returned [door]
  ∧ (main obliging model [5] [(99, "T10")] (Some "T10") (Some "2")).2 = Completed
  ∧ valid_elements model [5; 6; 7] = [door; slab]
  ∧ List.filter spec_filter (omap (λ elem_id, model !! elem_id) [5; 6; 7]) = [slab].
Proof. repeat split; vm_compute; reflexivity. Qed.

End InsertRebarFacts.


(** ** More on Rename Views *)

Module RenameViewsMore.
Import RenameViews Measures PyFacts RenameViewsFacts.

(** The loop of a view ends with the document as it was or with one of
    the candidates assigned. *)
Lemma retry_result n : ∀ (d : Doc) v old name,
  (retry n d v old name).1 = d
  ∨ ∃ k, (k < n)%nat ∧ (retry n d v old name).1 = <[v := starred name k]> d.
Proof.
  induction n as [|n IH]; intros d v old name; [now left|].
  cbn [retry]. unfold set_Name. destruct (name_taken d v name).
  - pose proof (IH d v old (String.app name "*")) as H.
    destruct (retry n d v old (String.app name "*")) as [d' ev].
    destruct H as [H | (k & Hk & H)]; [now left|].
    right. exists (S k). split; [lia|]. now rewrite <- starred_S.
  - right. exists 0%nat. split; [lia|]. now rewrite starred_0.
Qed.

Lemma retry_dom n (d : Doc) v old name :
  is_Some (d !! v) → dom (retry n d v old name).1 = dom d.
Proof.
  intros Hv. destruct (retry_result n d v old name) as [-> | (k & _ & ->)];
    [reflexivity|].
  rewrite dom_insert_L. apply subseteq_union_1_L, singleton_subseteq_l.
  now apply elem_of_dom.
Qed.

Lemma rename_view_dom r (d : Doc) v d' ev :
  rename_view r d v = Some (d', ev) → dom d' = dom d.
Proof.
  unfold rename_view. destruct (d !! v) as [old|] eqn:Hv; [|discriminate].
  intros Hrun.
  assert (retry 20 d v old (new_name r old) = (d', ev)) as Hrun' by congruence.
  pose proof (retry_dom 20 d v old (new_name r old) ltac:(eauto)) as Hdom.
  now rewrite Hrun' in Hdom.
Qed.

Lemma rename_loop_dom r sel : ∀ (d : Doc) d' ev,
  rename_loop r d sel = Some (d', ev) → dom d' = dom d.
Proof.
  induction sel as [|v rest IH]; intros d d' ev Hrun.
  - now injection Hrun as <- <-.
  - cbn [rename_loop] in Hrun.
    destruct (rename_view r d v) as [[d1 e1]|] eqn:H1; [|discriminate].
    destruct (rename_loop r d1 rest) as [[d2 e2]|] eqn:H2; [|discriminate].
    injection Hrun as <- <-.
    rewrite (IH _ _ _ H2). eapply rename_view_dom; eassumption.
Qed.

(** The loop gets through a selection of views of the document. *)
Lemma rename_loop_total r sel : ∀ (d : Doc),
  Forall (λ v, is_Some (d !! v)) sel → is_Some (rename_loop r d sel).
Proof.
  induction sel as [|v rest IH]; intros d Hsel; [now eexists|].
  apply Forall_cons in Hsel as [[old Hv] Hrest].
  cbn [rename_loop].
  destruct (rename_view r d v) as [[d1 e1]|] eqn:H1.
  - assert (Forall (λ w, is_Some (d1 !! w)) rest) as Hrest1.
    { eapply Forall_impl; [exact Hrest|]. intros w Hw. cbn in Hw |- *.
      apply elem_of_dom. rewrite (rename_view_dom _ _ _ _ _ H1).
      now apply elem_of_dom. }
    destruct (IH d1 Hrest1) as [[d2 e2] ->]. now eexists.
  - unfold rename_view in H1. now rewrite Hv in H1.
Qed.

(** X1: the loop changes the name of no view outside the selection, and
    adds or removes no view. *)
Theorem unselected_views_keep_their_names r (d : Doc) sel d' ev :
  rename_loop r d sel = Some (d', ev) →
  dom d' = dom d ∧ ∀ w, w ∉ sel → d' !! w = d !! w.
Proof.
  intros Hrun. split; [eapply rename_loop_dom; eassumption|].
  intros w Hw. eapply rename_loop_other; eassumption.
Qed.

Lemma unselected_views_keep_their_names_witness :
  ∃ d' ev, rename_loop floorplan_rule two_plans [1] = Some (d', ev)
           ∧ d' !! 2 = two_plans !! 2.
Proof.
  eexists _, _. split; [vm_compute; reflexivity|].
  refine (proj2 (unselected_views_keep_their_names
                   floorplan_rule two_plans [1] _ _ _) 2 _).
  - vm_compute. reflexivity.
  - apply (bool_decide_unpack _). vm_compute. exact I.
Defined.

Lemma two_plans_distinct : distinct_names two_plans.
Proof.
  assert (∀ u n, two_plans !! u = Some n →
                 (u = 1 ∧ n = "FloorPlan 1") ∨ (u = 2 ∧ n = "L-Level 1"))
    as Hcases.
  { intros u n H. unfold two_plans in H.
    rewrite lookup_insert in H. case_decide; [left; split; congruence|].
    rewrite lookup_insert in H. case_decide; [right; split; congruence|].
    now rewrite lookup_empty in H. }
  intros v w name Hv Hw.
  destruct (Hcases _ _ Hv) as [[-> ->] | [-> ->]];
    destruct (Hcases _ _ Hw) as [[-> H] | [-> H]];
    (reflexivity || discriminate).
Qed.

(** X2: if no two views of the document have the same name before the
    script runs, no two have the same name after it, however it ends. *)
Theorem script_keeps_names_distinct (d : Doc) selection picked user_inputs :
  distinct_names d → distinct_names (script d selection picked user_inputs).1.1.
Proof.
  intros Hd. unfold script.
  destruct (match selected_views d selection with
            | [] => match picked with Some vs => vs | None => [] end
            | _ :: _ => selected_views d selection
            end) as [|v sel]; [exact Hd|].
  destruct user_inputs as [r|]; [|exact Hd].
  destruct (rename_loop r d (v :: sel)) as [[d' ev]|] eqn:Hrun; [|exact Hd].
  exact (rename_loop_distinct r (v :: sel) d d' ev Hd Hrun).
Qed.

Lemma script_keeps_names_distinct_witness :
  distinct_names (script two_plans [1; 2] None (Some floorplan_rule)).1.1.
Proof.
  exact (script_keeps_names_distinct two_plans [1; 2] None (Some floorplan_rule)
           two_plans_distinct).
Defined.

(** X3: a view that is selected once ends with its old name or with its
    computed name followed by at most nineteen sentinels. *)
Theorem selected_view_gets_a_candidate r (d : Doc) sel v old d' ev :
  NoDup sel → v ∈ sel → d !! v = Some old →
  rename_loop r d sel = Some (d', ev) →
  d' !! v = Some old
  ∨ ∃ k, (k < 20)%nat ∧ d' !! v = Some (starred (new_name r old) k).
Proof.
  intros Hnodup Hin Hold Hrun.
  apply list_elem_of_split in Hin as (pre & post & ->).
  apply NoDup_app in Hnodup as (_ & Hpre & Hpost).
  apply NoDup_cons in Hpost as [Hpost _].
  assert (v ∉ pre) as Hvpre.
  { intros Hv. apply (Hpre v Hv). now left. }
  rewrite rename_loop_app in Hrun.
  destruct (rename_loop r d pre) as [[d1 e1]|] eqn:H1; [|discriminate].
  destruct (rename_loop r d1 (v :: post)) as [[d3 e3]|] eqn:H3; [|discriminate].
  injection Hrun as <- <-.
  cbn [rename_loop] in H3. unfold rename_view in H3.
  rewrite (rename_loop_other _ _ _ _ _ _ H1 Hvpre), Hold in H3.
  pose proof (retry_result 20 d1 v old (new_name r old)) as Hres.
  destruct (retry 20 d1 v old (new_name r old)) as [d2 e2]. cbn [fst] in Hres.
  destruct (rename_loop r d2 post) as [[d4 e4]|] eqn:H4; [|discriminate].
  injection H3 as <- <-.
  rewrite (rename_loop_other _ _ _ _ _ _ H4 Hpost).
  destruct Hres as [-> | (k & Hk & ->)].
  - left. now rewrite (rename_loop_other _ _ _ _ _ _ H1 Hvpre).
  - right. exists k. split; [exact Hk | apply lookup_insert_eq].
Qed.

Lemma selected_view_gets_a_candidate_witness :
  ∃ d' ev, rename_loop floorplan_rule two_plans [1] = Some (d', ev)
           ∧ (d' !! 1 = Some "FloorPlan 1"
              ∨ ∃ k, (k < 20)%nat ∧ d' !! 1 = Some (starred "L-Level 1" k)).
Proof.
  eexists _, _. split; [vm_compute; reflexivity|].
  refine (selected_view_gets_a_candidate floorplan_rule two_plans [1] 1
            "FloorPlan 1" _ _ _ _ _ _).
  - apply (bool_decide_unpack _). vm_compute. exact I.
  - apply (bool_decide_unpack _). vm_compute. exact I.
  - vm_compute. reflexivity.
  - vm_compute. reflexivity.
Defined.

Lemma retry_counts n : ∀ (d : Doc) v old name,
  (length (List.filter is_SetName (retry n d v old name).2) ≤ n)%nat
  ∧ length (List.filter is_Print (retry n d v old name).2)
    = length (List.filter is_accepted (retry n d v old name).2)
  ∧ (length (List.filter is_Print (retry n d v old name).2) ≤ 1)%nat
  ∧ Forall (λ e, is_rename_step e = true) (retry n d v old name).2.
Proof.
  induction n as [|n IH]; intros d v old name.
  - cbn. repeat split; (lia || constructor).
  - cbn [retry]. destruct (set_Name d v name) as [d'|].
    + cbn. repeat split; try lia. repeat constructor.
    + specialize (IH d v old (String.app name "*")).
      destruct (retry n d v old (String.app name "*")) as [d' ev].
      cbn in IH |- *. destruct IH as (H1 & H2 & H3 & H4).
      repeat split; try lia. now constructor.
Qed.

(** The trace of the loop of a view, by the number of candidates the host
    rejected. *)
Lemma retry_view_steps n : ∀ (d : Doc) v old name,
  ∃ k, (k ≤ n)%nat
       ∧ (retry n d v old name).2
         = map (rejected v) (candidates name k)
           ++ (if (k <? n)%nat
               then [SetName v (starred name k) true;
                     Print (report old (starred name k))]
               else []).
Proof.
  induction n as [|n IH]; intros d v old name.
  - exists 0%nat. split; [lia | reflexivity].
  - cbn [retry]. destruct (set_Name d v name) as [d'|].
    + exists 0%nat. split; [lia|]. cbn [snd candidates seq map app].
      change (0 <? S n)%nat with true. now rewrite starred_0.
    + destruct (IH d v old (String.app name "*")) as (k & Hk & Hev).
      destruct (retry n d v old (String.app name "*")) as [d' ev].
      cbn [snd] in *. exists (S k). split; [lia|].
      rewrite candidates_S, starred_0, <- starred_S, Hev.
      change (S k <? S n)%nat with (k <? n)%nat. reflexivity.
Qed.

Lemma rejected_filter (f : Event → bool) v l :
  (∀ name, f (rejected v name) = true) →
  List.filter f (map (rejected v) l) = map (rejected v) l.
Proof.
  intros Hf. induction l as [|name l IH]; [reflexivity|].
  cbn [map List.filter]. now rewrite Hf, IH.
Qed.

Lemma rejected_filter_out (f : Event → bool) v l :
  (∀ name, f (rejected v name) = false) →
  List.filter f (map (rejected v) l) = [].
Proof.
  intros Hf. induction l as [|name l IH]; [reflexivity|].
  cbn [map List.filter]. now rewrite Hf, IH.
Qed.

Lemma candidates_length name k : length (candidates name k) = k.
Proof. unfold candidates. now rewrite length_map, length_seq. Qed.

(** What the steps of one view count up to. *)
Lemma view_steps_counts v old name k :
  (k ≤ 20)%nat →
  (length (List.filter is_SetName (view_steps v old name k)) ≤ 20)%nat
  ∧ (length (List.filter is_Print (view_steps v old name k)) ≤ 1)%nat
  ∧ length (List.filter is_Print (view_steps v old name k))
    = length (List.filter is_accepted (view_steps v old name k))
  ∧ Forall (λ e, is_SetName e = true → is_SetName_of v e = true)
           (view_steps v old name k).
Proof.
  intros Hk. unfold view_steps.
  rewrite !List.filter_app, !length_app.
  rewrite (rejected_filter is_SetName) by reflexivity.
  rewrite (rejected_filter_out is_Print) by reflexivity.
  rewrite (rejected_filter_out is_accepted) by reflexivity.
  rewrite length_map, candidates_length.
  assert (Forall (λ e, is_SetName e = true → is_SetName_of v e = true)
                 (map (rejected v) (candidates name k))) as Hrej.
  { apply List.Forall_forall. intros e (c & <- & _)%in_map_iff _.
    cbn. apply Z.eqb_refl. }
  destruct (Nat.ltb_spec k 20) as [Hlt|Hge]; cbn [List.filter is_SetName
    is_Print is_accepted length].
  - repeat split; try lia. apply Forall_app. split; [exact Hrej|].
    apply Forall_cons. split; [intros _; cbn; apply Z.eqb_refl|].
    apply Forall_cons. split; [intros H; discriminate H | constructor].
  - repeat split; try lia. apply Forall_app. split; [exact Hrej | constructor].
Qed.

Lemma view_steps_of v w old name k :
  (k ≤ 20)%nat →
  (length (List.filter (is_SetName_of w) (view_steps v old name k))
   ≤ if Z.eq_dec v w then 20 else 0)%nat.
Proof.
  intros Hk. unfold view_steps. rewrite List.filter_app, length_app.
  destruct (Z.eq_dec v w) as [->|Hvw].
  - rewrite (rejected_filter (is_SetName_of w)) by (intros; apply Z.eqb_refl).
    rewrite length_map, candidates_length.
    destruct (Nat.ltb_spec k 20); cbn [List.filter is_SetName_of length].
    + rewrite Z.eqb_refl. cbn [length]. lia.
    + lia.
  - rewrite (rejected_filter_out (is_SetName_of w))
      by (intros; now apply Z.eqb_neq).
    destruct (Nat.ltb_spec k 20); cbn [List.filter is_SetName_of length].
    + apply Z.eqb_neq in Hvw. rewrite Hvw. cbn [length]. lia.
    + lia.
Qed.

(** X4: the trace of the loop is one run of steps for each selected view,
    in the order of the selection: the rejected assignments of the
    candidates, one sentinel more each time, and then, unless all twenty
    were rejected, the accepted assignment and the line printed for it.  A
    run assigns to its own view only, at most twenty times, and prints at
    most one line; a view is assigned a name at most twenty times for each
    time it is in the selection.  When no view is selected twice, the
    candidates of a view and the line printed for it are made from the
    name it had before the script ran. *)
Theorem attempts_are_bounded r sel : ∀ (d : Doc) d' ev,
  rename_loop r d sel = Some (d', ev) →
  ∃ runs,
    ev = concat runs
    ∧ Forall2 (λ v run,
         ∃ old k,
           (k ≤ 20)%nat ∧ run = view_steps v old (new_name r old) k
           ∧ (length (List.filter is_SetName run) ≤ 20)%nat
           ∧ (length (List.filter is_Print run) ≤ 1)%nat
           ∧ length (List.filter is_Print run)
             = length (List.filter is_accepted run)
           ∧ Forall (λ e, is_SetName e = true → is_SetName_of v e = true) run)
        sel runs
    ∧ (∀ v, (length (List.filter (is_SetName_of v) ev)
             ≤ 20 * count_occ Z.eq_dec sel v)%nat)
    ∧ (NoDup sel →
       ∀ i v old, sel !! i = Some v → d !! v = Some old →
                  ∃ k, (k ≤ 20)%nat
                       ∧ runs !! i = Some (view_steps v old (new_name r old) k)).
Proof.
  induction sel as [|u rest IH]; intros d d' ev Hrun.
  - injection Hrun as <- <-. exists []. split; [reflexivity|].
    split; [constructor|]. split; [intros v; cbn; lia|].
    intros _ i v old Hi. now rewrite lookup_nil in Hi.
  - cbn [rename_loop] in Hrun. unfold rename_view in Hrun.
    destruct (d !! u) as [old|] eqn:Hu; [|discriminate].
    destruct (retry_view_steps 20 d u old (new_name r old)) as (k & Hk & Hev).
    fold (view_steps u old (new_name r old) k) in Hev.
    pose proof (retry_other 20 d u old (new_name r old)) as Hother.
    destruct (retry 20 d u old (new_name r old)) as [d1 e1].
    cbn [fst snd] in Hev, Hother. subst e1.
    destruct (rename_loop r d1 rest) as [[d2 e2]|] eqn:Hrest; [|discriminate].
    injection Hrun as <- <-.
    destruct (IH d1 d2 e2 Hrest) as (runs & -> & Hruns & Hcount & Hnames).
    exists (view_steps u old (new_name r old) k :: runs).
    split; [reflexivity|]. split; [|split].
    + constructor; [|exact Hruns]. exists old, k.
      pose proof (view_steps_counts u old (new_name r old) k Hk)
        as (H1 & H2 & H3 & H4).
      auto 10.
    + intros v. rewrite List.filter_app, length_app.
      pose proof (view_steps_of u v old (new_name r old) k Hk) as Hv.
      specialize (Hcount v). cbn [count_occ].
      destruct (Z.eq_dec u v); lia.
    + intros [Hfresh Hnodup]%NoDup_cons i v old' Hi Hv.
      destruct i as [|j].
      * injection Hi as <-. rewrite Hu in Hv. injection Hv as <-.
        exists k. split; [exact Hk | reflexivity].
      * cbn [lookup list_lookup] in Hi |- *.
        assert (v ≠ u) as Hvu.
        { intros ->. apply Hfresh. eapply list_elem_of_lookup_2. exact Hi. }
        apply (Hnames Hnodup j v old' Hi). now rewrite Hother.
Qed.

Lemma attempts_are_bounded_witness :
  ∃ d' ev, rename_loop floorplan_rule two_plans [1; 2] = Some (d', ev)
           ∧ (length (List.filter (is_SetName_of 1) ev) ≤ 20 * 1)%nat.
Proof.
  eexists _, _. split; [vm_compute; reflexivity|].
  destruct (attempts_are_bounded floorplan_rule [1; 2] two_plans _ _
              ltac:(vm_compute; reflexivity)) as (runs & _ & _ & Hcount & _).
  exact (Hcount 1).
Defined.

Lemma rename_loop_steps r sel : ∀ (d : Doc) d' ev,
  rename_loop r d sel = Some (d', ev) →
  Forall (λ e, is_rename_step e = true) ev.
Proof.
  induction sel as [|v rest IH]; intros d d' ev Hrun.
  - injection Hrun as <- <-. constructor.
  - cbn [rename_loop] in Hrun. unfold rename_view in Hrun.
    destruct (d !! v) as [old|]; [|discriminate].
    pose proof (retry_counts 20 d v old (new_name r old)) as (_ & _ & _ & H1).
    destruct (retry 20 d v old (new_name r old)) as [d1 e1]. cbn [snd] in *.
    destruct (rename_loop r d1 rest) as [[d2 e2]|] eqn:Hrest; [|discriminate].
    injection Hrun as <- <-. apply Forall_app. split; [exact H1|].
    exact (IH d1 d2 e2 Hrest).
Qed.

Lemma selected_views_exist (d : Doc) selection :
  Forall (λ v, is_Some (d !! v)) (selected_views d selection).
Proof.
  unfold selected_views. apply List.Forall_forall. intros v Hv.
  apply filter_In in Hv as [_ Hv]. now apply bool_decide_eq_true in Hv.
Qed.

(** X5: when a view is among the selected elements the picker plays no
    part.  If the form was filled in, the script renames the selected
    views inside one transaction, started before the first assignment and
    committed after the last, and reaches its last line; if the form was
    dismissed, the script ends with an exception before the transaction is
    started, with nothing printed and the document as it was. *)
Theorem selected_views_renamed_in_one_transaction
        (d : Doc) selection picked user_inputs :
  selected_views d selection ≠ [] →
  match user_inputs with
  | Some r =>
      ∃ d' ev,
        rename_loop r d (selected_views d selection) = Some (d', ev)
        ∧ script d selection picked (Some r)
          = (d', TxStart "py-Rename Views"
                 :: ev ++ [TxCommit; Print (Py.str_mul "-" 50); Print "Done"],
             Completed)
        ∧ Forall (λ e, is_rename_step e = true) ev
  | None => script d selection picked None = (d, [], Crashed)
  end.
Proof.
  intros Hsel. destruct user_inputs as [r|].
  - destruct (rename_loop_total r _ d (selected_views_exist d selection))
      as [[d' ev] Hrun].
    exists d', ev. split; [exact Hrun|]. split.
    + unfold script.
      destruct (selected_views d selection) as [|v sel] eqn:Hs; [congruence|].
      now rewrite Hrun.
    + exact (rename_loop_steps r _ d d' ev Hrun).
  - unfold script.
    now destruct (selected_views d selection) as [|v sel] eqn:Hs; [congruence|].
Qed.

Lemma selected_views_renamed_in_one_transaction_witness :
  (∃ d' ev,
      script two_plans [7; 2] (Some [1]) (Some floorplan_rule)
      = (d', TxStart "py-Rename Views"
             :: ev ++ [TxCommit; Print (Py.str_mul "-" 50); Print "Done"],
         Completed))
  ∧ script two_plans [7; 2] (Some [1]) None = (two_plans, [], Crashed).
Proof.
  split.
  - destruct (selected_views_renamed_in_one_transaction
                two_plans [7; 2] (Some [1]) (Some floorplan_rule)
                ltac:(vm_compute; discriminate))
      as (d' & ev & _ & Hscript & _).
    now exists d', ev.
  - exact (selected_views_renamed_in_one_transaction
             two_plans [7; 2] (Some [1]) None ltac:(vm_compute; discriminate)).
Defined.

Lemma app_star_neq c : String.app c "*" ≠ c.
Proof.
  induction c as [|x c IH]; [discriminate|].
  change (String.app (String x c) "*") with (String x (String.app c "*")).
  intros [= H]. now apply IH.
Qed.

Lemma name_taken_false (d : Doc) v name :
  name_taken d v name = false ↔ ∀ w, w ≠ v → d !! w ≠ Some name.
Proof.
  split.
  - intros Hfree w Hw Hl.
    assert (name_taken d v name = true) by (apply name_taken_spec; eauto).
    congruence.
  - intros Hothers. destruct (name_taken d v name) eqn:Ht; [|reflexivity].
    apply name_taken_spec in Ht as (w & Hw & Hl). now destruct (Hothers w Hw).
Qed.

(** X6: when two selected views compute the same name and nothing else
    has it, the one that comes first gets the name and the other gets it
    with one sentinel, after one rejected attempt. *)
Theorem second_view_gets_the_sentinel r (d : Doc) v w ov ow c :
  v ≠ w → d !! v = Some ov → d !! w = Some ow →
  new_name r ov = c → new_name r ow = c →
  name_taken d v c = false →
  name_taken (delete v d) w (String.app c "*") = false →
  rename_loop r d [v; w]
  = Some (<[w := String.app c "*"]> (<[v := c]> d),
          [SetName v c true; Print (report ov c);
           SetName w c false; SetName w (String.app c "*") true;
           Print (report ow (String.app c "*"))]).
Proof.
  intros Hvw Hv Hw Hcv Hcw Hfree Hstar.
  cbn [rename_loop]. unfold rename_view. rewrite Hv, Hcv.
  rewrite (retry_first_accepted 20 d v ov c 0);
    [| lia | reflexivity | now rewrite starred_0].
  rewrite starred_0. cbn [candidates seq map app].
  rewrite lookup_insert_ne by exact Hvw. rewrite Hw, Hcw.
  assert (starred c 1 = String.app c "*") as Hone
    by (now rewrite starred_snoc, starred_0).
  rewrite (retry_first_accepted 20 (<[v:=c]> d) w ow c 1); [| lia | |].
  - rewrite Hone. cbn [candidates seq map app]. rewrite starred_0. reflexivity.
  - cbn [candidates seq map forallb]. rewrite starred_0, andb_true_r.
    apply name_taken_spec. exists v. split; [exact Hvw | apply lookup_insert_eq].
  - rewrite Hone. apply name_taken_false. intros u Hu Hl.
    destruct (decide (u = v)) as [->|Huv].
    + rewrite lookup_insert_eq in Hl. injection Hl as Hl.
      now apply (app_star_neq c).
    + rewrite lookup_insert_ne in Hl by congruence.
      apply (proj1 (name_taken_false _ _ _) Hstar u Hu).
      now rewrite lookup_delete_ne by congruence.
Qed.

Lemma second_view_gets_the_sentinel_witness :
  rename_loop (mkRule "x" "1" "" "") (<[1 := "P1"]> (<[2 := "P"]> ∅)) [1; 2]
  = Some (<[2 := "xP*"]> (<[1 := "xP"]> (<[1 := "P1"]> (<[2 := "P"]> ∅))),
          [SetName 1 "xP" true; Print "P1 -> xP";
           SetName 2 "xP" false; SetName 2 "xP*" true; Print "P -> xP*"]).
Proof.
  exact (second_view_gets_the_sentinel (mkRule "x" "1" "" "")
           (<[1 := "P1"]> (<[2 := "P"]> ∅)) 1 2 "P1" "P" "xP"
           ltac:(discriminate) eq_refl eq_refl eq_refl eq_refl
           ltac:(vm_compute; reflexivity) ltac:(vm_compute; reflexivity)).
Defined.

Lemma set_Name_same (d : Doc) v old :
  distinct_names d → d !! v = Some old → set_Name d v old = Some d.
Proof.
  intros Hd Hv. unfold set_Name.
  assert (name_taken d v old = false) as ->.
  { apply name_taken_false. intros w Hw Hl. apply Hw. exact (Hd w v old Hl Hv). }
  now rewrite insert_id.
Qed.

(** X7: a rule that gives every selected view its own name changes
    nothing: the host accepts each assignment at once, each view is
    reported once and the document is the same. *)
Theorem rule_that_changes_nothing r (d : Doc) sel :
  distinct_names d →
  Forall (λ v, ∃ old, d !! v = Some old ∧ new_name r old = old) sel →
  rename_loop r d sel = Some (d, flat_map (kept d) sel).
Proof.
  intros Hd. induction 1 as [|v rest (old & Hv & Hsame) _ IH]; [reflexivity|].
  cbn [rename_loop flat_map]. unfold rename_view, kept at 1.
  rewrite Hv, Hsame. cbn [retry]. rewrite (set_Name_same d v old Hd Hv).
  now rewrite IH.
Qed.

Lemma rule_that_changes_nothing_witness :
  rename_loop (mkRule "" "Section" "Detail" "") two_plans [2; 1]
  = Some (two_plans,
          [SetName 2 "L-Level 1" true; Print "L-Level 1 -> L-Level 1";
           SetName 1 "FloorPlan 1" true; Print "FloorPlan 1 -> FloorPlan 1"]).
Proof.
  refine (rule_that_changes_nothing (mkRule "" "Section" "Detail" "") two_plans
            [2; 1] two_plans_distinct _).
  repeat constructor; eexists; split; vm_compute; reflexivity.
Defined.

(** X8: when [find] is not empty and does not occur in the name of a view,
    the computed name is the old name between the prefix and the suffix. *)
Theorem absent_find_only_adds_affixes r old :
  find r ≠ EmptyString → Py.occurs (find r) old = false →
  new_name r old = String.app (String.app (prefix r) old) (suffix r).
Proof.
  intros Hfind Habsent. unfold new_name.
  now rewrite (replace_absent old (find r) (replace r) Hfind Habsent).
Qed.

Lemma absent_find_only_adds_affixes_witness :
  new_name (mkRule "A-" "Plan" "Level" "-B") "Section 1" = "A-Section 1-B".
Proof.
  exact (absent_find_only_adds_affixes (mkRule "A-" "Plan" "Level" "-B")
           "Section 1" ltac:(discriminate) eq_refl).
Defined.

(** X18: when no view is among the selected elements, the script works on
    the views the picker returns instead.  If the form was filled in it
    renames them in one transaction and reaches its last line; if the form
    was dismissed it ends with an exception before any transaction, with
    the document as it was. *)
Theorem picked_views_are_renamed (d : Doc) selection v vs user_inputs :
  selected_views d selection = [] →
  Forall (λ w, is_Some (d !! w)) (v :: vs) →
  match user_inputs with
  | Some r =>
      ∃ d' ev,
        rename_loop r d (v :: vs) = Some (d', ev)
        ∧ script d selection (Some (v :: vs)) (Some r)
          = (d', TxStart "py-Rename Views"
                 :: ev ++ [TxCommit; Print (Py.str_mul "-" 50); Print "Done"],
             Completed)
  | None => script d selection (Some (v :: vs)) None = (d, [], Crashed)
  end.
Proof.
  intros Hsel Hviews. destruct user_inputs as [r|].
  - destruct (rename_loop_total r _ d Hviews) as [[d' ev] Hrun].
    exists d', ev. split; [exact Hrun|].
    unfold script. rewrite Hsel. now rewrite Hrun.
  - unfold script. now rewrite Hsel.
Qed.

Lemma picked_views_are_renamed_witness :
  (∃ d' ev,
      script two_plans [7] (Some [2]) (Some (mkRule "" "L-" "" ""))
      = (d', TxStart "py-Rename Views"
             :: ev ++ [TxCommit; Print (Py.str_mul "-" 50); Print "Done"],
         Completed))
  ∧ script two_plans [7] (Some [2]) None = (two_plans, [], Crashed).
Proof.
  split.
  - destruct (picked_views_are_renamed two_plans [7] 2 []
                (Some (mkRule "" "L-" "" ""))
                eq_refl ltac:(repeat constructor; now eexists))
      as (d' & ev & _ & Hscript).
    now exists d', ev.
  - exact (picked_views_are_renamed two_plans [7] 2 [] None
             eq_refl ltac:(repeat constructor; now eexists)).
Defined.

End RenameViewsMore.

(** ** More on the rebar placement *)

Module InsertRebarMore.
Import InsertRebar Binary64 Measures PyFacts InsertRebarFacts.

Section AnyNumbers.
Context {F : Type} {number : Number F}.
Variable raises : list (Event F) → Call F → option string.
Local Open Scope number_scope.

(** *** A host that does not raise *)

Section Quiet.
Hypothesis quiet : ∀ past c, raises past c = None.







End Quiet.

(** *** A call that raises *)

Lemma follows_ret {A} (a : A) : follows (F := F) (ret a) [].
Proof. intros past. reflexivity. Qed.

Lemma follows_call c : follows (call raises c) [Called c].
Proof.
  intros past. unfold call. destruct (raises past c); [|reflexivity].
  split; [discriminate | reflexivity].
Qed.

Lemma follows_bind {A B} (m : @M F A) (f : A → @M F B) full1 full2 :
  follows m full1 → (∀ a, follows (f a) full2) →
  follows (bind m f) (full1 ++ full2).
Proof.
  intros Hm Hf past. unfold bind. specialize (Hm past).
  destruct (m past) as [ev1 [a|message]].
  - subst ev1. specialize (Hf a (past ++ full1)).
    destruct (f a (past ++ full1)) as [ev2 [b|message]].
    + now subst ev2.
    + destruct Hf as [Hne Hpre]. split; [|now apply prefix_app].
      destruct full1; [exact Hne | discriminate].
  - destruct Hm as [Hne Hpre]. split; [exact Hne | now apply prefix_app_r].
Qed.

Lemma follows_create_rebar rebar_type host norm ends :
  follows (create_rebar raises rebar_type host norm ends)
          (bar_calls rebar_type host norm ends).
Proof.
  unfold create_rebar.
  apply (follows_bind _ _ [_] [_]); [|intros _]; apply follows_call.
Qed.

Lemma follows_for_each rebar_type host norm (line : Z → XYZ F * XYZ F) l :
  follows (for_each l (λ i, create_rebar raises rebar_type host norm (line i)))
          (flat_map (λ i, bar_calls rebar_type host norm (line i)) l).
Proof.
  induction l as [|i l IH]; [apply follows_ret|].
  cbn [for_each flat_map].
  apply follows_bind; [apply follows_create_rebar | intros _; exact IH].
Qed.

(** X11: a placement that fails for an element with a bounding box has
    made the calls of a successful one up to the call that raised; if the
    transaction was reached it is disposed of without the calls that were
    left, and the failure is printed last. *)
Theorem failed_placement_stops_at_the_raise
        element bbox rebar_type vertical horizontal past ev :
  BoundingBox element = Some bbox →
  place_rebars raises element rebar_type vertical horizontal past = (ev, false) →
  ∃ message,
    ev = [Called (get_BoundingBox (Id element)); PrintFailed (Id element) message]
    ∨ ∃ pre,
        pre ≠ []
        ∧ pre `prefix_of` transaction_calls element bbox rebar_type vertical horizontal
        ∧ ev = Called (get_BoundingBox (Id element))
               :: pre ++ [Dispose; PrintFailed (Id element) message].
Proof.
  intros Hbox. unfold place_rebars, place_rebars_try. rewrite Hbox.
  unfold bind at 1. unfold call at 1.
  destruct (raises past (get_BoundingBox (Id element))) as [message|].
  { intros [= <-]. exists message. now left. }
  unfold bind at 1. unfold with_Transaction.
  set (block := bind (call raises (Start "Place Rebars")) _).
  assert (follows block
            (transaction_calls element bbox rebar_type vertical horizontal))
    as Hblock.
  { unfold block, transaction_calls.
    apply (follows_bind _ _ [_]); [apply follows_call | intros _].
    apply follows_bind; [apply follows_for_each | intros _].
    apply follows_bind; [apply follows_for_each | intros _].
    apply follows_call. }
  specialize (Hblock (past ++ [Called (get_BoundingBox (Id element))])).
  destruct (block (past ++ [Called (get_BoundingBox (Id element))]))
    as [evb [[]|message]].
  - unfold ret. discriminate.
  - destruct Hblock as [Hne Hpre]. intros [= <-].
    exists message. right. exists evb. split; [exact Hne|]. split; [exact Hpre|].
    cbn [app]. now rewrite <- app_assoc.
Qed.

(** *** Where the bars are *)

Lemma created_bars rebar_type host (line : Z → XYZ F * XYZ F) l :
  created_xs (flat_map (λ i, bar_calls rebar_type host BasisX (line i)) l)
  = map (λ i, X (fst (line i))) l
  ∧ created_zs (flat_map (λ i, bar_calls rebar_type host BasisX (line i)) l) = []
  ∧ created_xs (flat_map (λ i, bar_calls rebar_type host BasisZ (line i)) l) = []
  ∧ created_zs (flat_map (λ i, bar_calls rebar_type host BasisZ (line i)) l)
    = map (λ i, Z_ (fst (line i))) l.
Proof.
  unfold created_xs, created_zs.
  induction l as [|i l (IH1 & IH2 & IH3 & IH4)]; [now repeat split|].
  cbn [flat_map bar_calls app map first_end].
  rewrite IH1, IH2, IH3, IH4. now repeat split.
Qed.

Lemma created_transaction element bbox rebar_type vertical horizontal :
  created_xs (transaction_calls element bbox rebar_type vertical horizontal)
  = map (λ i, X (Min bbox) + SNI_COVER
              + of_int i * spacing (X (Max bbox) - X (Min bbox)) vertical)
        (Py.range vertical)
  ∧ created_zs (transaction_calls element bbox rebar_type vertical horizontal)
    = map (λ i, Z_ (Min bbox) + SNI_COVER
                + of_int i * spacing (Z_ (Max bbox) - Z_ (Min bbox)) horizontal)
          (Py.range horizontal).
Proof.
  unfold transaction_calls.
  pose proof (created_bars rebar_type (Id element)
                (vertical_line bbox (spacing (X (Max bbox) - X (Min bbox)) vertical))
                (Py.range vertical)) as (V1 & V2 & _ & _).
  pose proof (created_bars rebar_type (Id element)
                (horizontal_line bbox (spacing (Z_ (Max bbox) - Z_ (Min bbox)) horizontal))
                (Py.range horizontal)) as (_ & _ & H3 & H4).
  split.
  - change (created_xs (?e :: ?l)) with (created_xs l). unfold created_xs in *.
    rewrite !flat_map_app, V1, H3. cbn [flat_map app]. now rewrite app_nil_r.
  - change (created_zs (?e :: ?l)) with (created_zs l). unfold created_zs in *.
    rewrite !flat_map_app, V2, H4. cbn [flat_map app]. now rewrite app_nil_r.
Qed.

Lemma created_prefix (l1 l2 : list (Event F)) :
  l1 `prefix_of` l2 →
  created_xs l1 `prefix_of` created_xs l2 ∧ created_zs l1 `prefix_of` created_zs l2.
Proof.
  intros [k ->]. unfold created_xs, created_zs. rewrite !flat_map_app.
  split; now eexists.
Qed.

(** The calls of a placement, whatever its outcome: the query of the
    bounding box, then calls of the transaction up to one that raises, if
    one does, then what ends the placement. *)
Lemma place_rebars_calls element bbox rebar_type vertical horizontal past :
  BoundingBox element = Some bbox →
  ∃ pre tail,
    (place_rebars raises element rebar_type vertical horizontal past).1
    = Called (get_BoundingBox (Id element)) :: pre ++ tail
    ∧ pre `prefix_of` transaction_calls element bbox rebar_type vertical horizontal
    ∧ created_xs tail = [] ∧ created_zs tail = []
    ∧ ((place_rebars raises element rebar_type vertical horizontal past).2 = true →
       pre = transaction_calls element bbox rebar_type vertical horizontal).
Proof.
  intros Hbox.
  destruct (place_rebars raises element rebar_type vertical horizontal past)
    as [ev ok] eqn:Hrun.
  cbn [fst snd]. revert Hrun.
  unfold place_rebars, place_rebars_try. rewrite Hbox.
  unfold bind at 1. unfold call at 1.
  destruct (raises past (get_BoundingBox (Id element))) as [message|].
  { intros [= <- <-]. exists [], [PrintFailed (Id element) message].
    split; [reflexivity|]. split; [apply prefix_nil|]. now repeat split. }
  unfold bind at 1. unfold with_Transaction.
  set (block := bind (call raises (Start "Place Rebars")) _).
  assert (follows block
            (transaction_calls element bbox rebar_type vertical horizontal))
    as Hblock.
  { unfold block, transaction_calls.
    apply (follows_bind _ _ [_]); [apply follows_call | intros _].
    apply follows_bind; [apply follows_for_each | intros _].
    apply follows_bind; [apply follows_for_each | intros _].
    apply follows_call. }
  specialize (Hblock (past ++ [Called (get_BoundingBox (Id element))])).
  destruct (block (past ++ [Called (get_BoundingBox (Id element))]))
    as [evb [[]|message]].
  - subst evb. unfold ret. intros [= <- <-].
    exists (transaction_calls element bbox rebar_type vertical horizontal), [Dispose].
    cbn [app]. rewrite app_nil_r. now repeat split.
  - destruct Hblock as [_ Hpre]. intros [= <- <-].
    exists evb, [Dispose; PrintFailed (Id element) message].
    cbn [app]. rewrite <- app_assoc. repeat split; try assumption. discriminate.
Qed.

(** The bars of a placement are the first bars of the two loops, and all
    of them when the placement succeeds. *)
Lemma place_rebars_created element bbox rebar_type vertical horizontal past :
  BoundingBox element = Some bbox →
  created_xs (place_rebars raises element rebar_type vertical horizontal past).1
    `prefix_of` map (λ i, X (Min bbox) + SNI_COVER
                          + of_int i * spacing (X (Max bbox) - X (Min bbox)) vertical)
                    (Py.range vertical)
  ∧ created_zs (place_rebars raises element rebar_type vertical horizontal past).1
      `prefix_of` map (λ i, Z_ (Min bbox) + SNI_COVER
                            + of_int i * spacing (Z_ (Max bbox) - Z_ (Min bbox))
                                           horizontal)
                      (Py.range horizontal)
  ∧ ((place_rebars raises element rebar_type vertical horizontal past).2 = true →
     created_xs (place_rebars raises element rebar_type vertical horizontal past).1
     = map (λ i, X (Min bbox) + SNI_COVER
                 + of_int i * spacing (X (Max bbox) - X (Min bbox)) vertical)
           (Py.range vertical)
     ∧ created_zs (place_rebars raises element rebar_type vertical horizontal past).1
       = map (λ i, Z_ (Min bbox) + SNI_COVER
                   + of_int i * spacing (Z_ (Max bbox) - Z_ (Min bbox)) horizontal)
             (Py.range horizontal)).
Proof.
  intros Hbox.
  destruct (place_rebars_calls element bbox rebar_type vertical horizontal past Hbox)
    as (pre & tail & Hev & Hpre & Hx & Hz & Hall).
  destruct (created_transaction element bbox rebar_type vertical horizontal)
    as [Tx Tz].
  assert (created_xs (place_rebars raises element rebar_type vertical horizontal past).1
          = created_xs pre
          ∧ created_zs (place_rebars raises element rebar_type vertical horizontal past).1
            = created_zs pre) as [Ex Ez].
  { rewrite Hev. change (created_xs (?e :: ?l)) with (created_xs l).
    change (created_zs (?e :: ?l)) with (created_zs l).
    unfold created_xs, created_zs in *. rewrite !flat_map_app, Hx, Hz.
    now rewrite !app_nil_r. }
  rewrite Ex, Ez. destruct (created_prefix _ _ Hpre) as [Px Pz].
  rewrite Tx in Px. rewrite Tz in Pz.
  split; [exact Px|]. split; [exact Pz|].
  intros Hok. rewrite (Hall Hok). now split.
Qed.

End AnyNumbers.


Lemma failed_placement_stops_at_the_raise_witness :
  ∃ message pre,
    pre ≠ []
    ∧ pre `prefix_of` transaction_calls door unit_box 99 2 2
    ∧ (place_rebars (refusing 5) door 99 2 2 []).1
      = Called (get_BoundingBox 5) :: pre ++ [Dispose; PrintFailed 5 message].
Proof.
  destruct (failed_placement_stops_at_the_raise (refusing 5) door unit_box 99 2 2 []
              (place_rebars (refusing 5) door 99 2 2 []).1 eq_refl
              ltac:(vm_compute; reflexivity))
    as (message & [Hfirst | (pre & Hne & Hpre & Hev)]).
  - vm_compute in Hfirst. discriminate.
  - exists message, pre. auto.
Defined.

Section Outcome.
Context {F : Type} {number : Number F}.
Variable raises : list (Event F) → Call F → option string.

Lemma place_rebars_events (P : Event F → Prop)
      element rebar_type vertical horizontal past :
  (∀ c, P (Called c)) → P Dispose →
  (∀ i, P (PrintSkipping i)) → (∀ i m, P (PrintFailed i m)) →
  Forall P (place_rebars raises element rebar_type vertical horizontal past).1.
Proof.
  intros Hcall Hdispose Hskip Hfail.
  assert (∀ p, Forall P
                 (place_rebars_try raises element rebar_type vertical horizontal p).1)
    as Htry.
  { unfold place_rebars_try.
    apply bind_Forall; [now apply call_Forall | intros _].
    destruct (BoundingBox element) as [bbox|].
    - apply bind_Forall; [|intros _ p; constructor].
      apply with_Transaction_Forall; [exact Hdispose|].
      apply bind_Forall; [now apply call_Forall | intros _].
      apply bind_Forall; [|intros _].
      { apply for_each_Forall. intros i. apply create_rebar_Forall.
        repeat constructor; apply Hcall. }
      apply bind_Forall; [|intros _; now apply call_Forall].
      apply for_each_Forall. intros i. apply create_rebar_Forall.
      repeat constructor; apply Hcall.
    - apply bind_Forall; [|intros _ p; constructor].
      intros p. repeat constructor. apply Hskip. }
  unfold place_rebars. specialize (Htry past).
  destruct (place_rebars_try raises element rebar_type vertical horizontal past)
    as [ev [ok|message]]; [exact Htry|].
  apply Forall_app. split; [exact Htry|]. repeat constructor. apply Hfail.
Qed.

Lemma placement_loop_bounds elements rebar_type vertical horizontal :
  ∀ past,
    (0 ≤ (placement_loop raises elements rebar_type vertical horizontal past).2
     ≤ Z.of_nat (length elements))%Z
    ∧ Forall (λ e, is_Alert e = false ∧ is_Summary e = false)
             (placement_loop raises elements rebar_type vertical horizontal past).1.
Proof.
  induction elements as [|element rest IH]; intros past.
  - cbn. split; [lia | constructor].
  - cbn [placement_loop].
    pose proof (place_rebars_events
                  (λ e, is_Alert e = false ∧ is_Summary e = false)
                  element rebar_type vertical horizontal past
                  ltac:(now intros) ltac:(now split)
                  ltac:(now intros) ltac:(now intros)) as Hev.
    destruct (place_rebars raises element rebar_type vertical horizontal past)
      as [ev ok].
    specialize (IH (past ++ ev)).
    destruct (placement_loop raises rest rebar_type vertical horizontal (past ++ ev))
      as [ev' n]. cbn [fst snd length] in *. destruct IH as [Hn Hev'].
    split; [destruct ok; lia | now apply Forall_app].
Qed.

(** X12: the script ends in one of two ways.  Either it shows one of its
    five alerts and exits, having called nothing of the host; or it reaches
    its summary, which comes last, after no other alert, with counts of at
    least 1 and a number of successes between 0 and the number of
    filtered elements, which is at least 1. *)
Theorem main_alerts_once_or_summarises
        (doc : gmap Z (Element F)) selection rebar_types rebar_type_name input :
  (∃ msg, msg ∈ exit_messages
          ∧ main raises doc selection rebar_types rebar_type_name input
            = ([Alert msg], Exited))
  ∨ (∃ ev success_count vertical horizontal,
        main raises doc selection rebar_types rebar_type_name input
        = (ev ++ [Summary success_count
                          (Z.of_nat (length (valid_elements doc selection)))
                          vertical horizontal],
           Completed)
        ∧ (0 ≤ success_count ≤ Z.of_nat (length (valid_elements doc selection)))%Z
        ∧ valid_elements doc selection ≠ []
        ∧ (1 ≤ vertical)%Z ∧ (1 ≤ horizontal)%Z
        ∧ get_rebar_counts input = Returned (vertical, horizontal)
        ∧ Forall (λ e, is_Alert e = false ∧ is_Summary e = false) ev).
Proof.
  unfold main, get_valid_elements.
  destruct (valid_elements doc selection) as [|e0 elements] eqn:Hvalid.
  { left. eexists. split; [|reflexivity]. unfold exit_messages. set_solver. }
  destruct rebar_type_name as [[|c name]|];
    try (left; eexists; split; [|reflexivity]; unfold exit_messages; set_solver).
  destruct (find_type rebar_types (String c name)) as [selected_type|];
    [|left; eexists; split; [|reflexivity]; unfold exit_messages; set_solver].
  destruct (get_rebar_counts input) as [[vertical horizontal]|msg] eqn:Hcounts.
  - right.
    pose proof (placement_loop_bounds (e0 :: elements) selected_type
                  vertical horizontal []) as [Hn Hev].
    destruct (placement_loop raises (e0 :: elements) selected_type
                vertical horizontal []) as [ev n]. cbn [fst snd] in *.
    exists ev, n, vertical, horizontal.
    split; [reflexivity|]. split; [exact Hn|]. split; [discriminate|].
    assert ((1 ≤ vertical)%Z ∧ (1 ≤ horizontal)%Z) as [Hv Hh].
    { destruct input as [[|c' text]|]; try discriminate.
      rewrite get_rebar_counts_text in Hcounts. unfold parse_counts in Hcounts.
      destruct (Py.split (Py.strip (String c' text))) as [|part0 rest];
        [discriminate|].
      destruct (Py.int part0) as [V|]; [|discriminate].
      destruct rest as [|part1 rest].
      - injection Hcounts as <- <-. lia.
      - destruct (Py.int part1) as [H|]; [|discriminate].
        injection Hcounts as <- <-. lia. }
    auto.
  - left. exists msg. split; [|reflexivity].
    destruct input as [[|c' text]|].
    + injection Hcounts as <-. unfold exit_messages. set_solver.
    + rewrite get_rebar_counts_text in Hcounts.
      destruct (parse_counts (String c' text)); [discriminate|].
      injection Hcounts as <-. unfold exit_messages. set_solver.
    + injection Hcounts as <-. unfold exit_messages. set_solver.
Qed.

End Outcome.

Section Types.

(** X13: the type the script uses is the first one, in the order of the
    document, whose name is the chosen name; a later type of the same
    name cannot be chosen; no type is found exactly when no name is the
    chosen one. *)
Theorem first_type_of_the_name_is_used (rebar_types : list (Z * string)) name :
  (∀ rt, find_type rebar_types name = Some rt ↔
         ∃ pre post, rebar_types = pre ++ (rt, name) :: post
                     ∧ name ∉ map snd pre)
  ∧ (find_type rebar_types name = None ↔ name ∉ map snd rebar_types).
Proof.
  induction rebar_types as [|[rt0 n0] rest [IHsome IHnone]].
  - split.
    + intros rt. split; [discriminate|].
      intros (pre & post & Heq & _). now destruct pre.
    + split; [intros _ H; inversion H | reflexivity].
  - cbn [find_type map snd]. destruct (String.eqb_spec n0 name) as [->|Hne].
    + split.
      * intros rt. split.
        -- intros [= <-]. exists [], rest. split; [reflexivity|]. intros H. inversion H.
        -- intros (pre & post & Heq & Hpre). destruct pre as [|[rt1 n1] pre].
           ++ now injection Heq as <- _.
           ++ injection Heq as <- <- _. destruct Hpre. now left.
      * split; [discriminate|]. intros H. destruct H. now left.
    + split.
      * intros rt. rewrite IHsome. split.
        -- intros (pre & post & -> & Hpre). exists ((rt0, n0) :: pre), post.
           split; [reflexivity|]. cbn [map snd].
           intros [H | H]%elem_of_cons; [congruence | now apply Hpre].
        -- intros (pre & post & Heq & Hpre). destruct pre as [|[rt1 n1] pre].
           ++ injection Heq as _ Hn _. congruence.
           ++ injection Heq as <- <- ->. exists pre, post.
              split; [reflexivity|]. intros H. apply Hpre. cbn [map snd]. now right.
      * rewrite IHnone. split.
        -- intros Hrest [H | H]%elem_of_cons; [congruence | now apply Hrest].
        -- intros Hall H. apply Hall. now right.
Qed.

End Types.

Lemma first_type_of_the_name_is_used_witness :
  find_type [(97, "T8"); (98, "T10"); (99, "T10")] "T10" = Some 98%Z.
Proof.
  apply (proj1 (first_type_of_the_name_is_used
                  [(97, "T8"); (98, "T10"); (99, "T10")]%Z "T10")).
  exists [(97, "T8")]%Z, [(99, "T10")]%Z. split; [reflexivity|].
  apply (bool_decide_unpack _). vm_compute. exact I.
Defined.

Section Answers.

Lemma value_from_nonneg ds : ∀ acc, (0 ≤ acc)%Z → (0 ≤ Py.value_from acc ds)%Z.
Proof.
  unfold Py.value_from.
  induction ds as [|d ds IH]; intros acc Hacc; [exact Hacc|].
  cbn [fold_left]. apply IH. lia.
Qed.

Lemma int_minus d ds :
  Forall (λ d, (d < 10)%nat) (d :: ds) →
  Py.int (String "-" (Py.numeral (d :: ds))) = Some (- Py.value (d :: ds))%Z.
Proof.
  intros Hds. unfold Py.int, Py.value.
  rewrite strip_word
    by (cbn [Py.no_space]; now rewrite (no_space_numeral (d :: ds) Hds)).
  cbn [Py.numeral].
  change (option_map Z.opp
            (Py.digits 0 (String (Py.digit_char d) (Py.numeral ds)))
          = Some (- Py.value_from 0 (d :: ds))%Z).
  change (String (Py.digit_char d) (Py.numeral ds)) with (Py.numeral (d :: ds)).
  now rewrite (digits_numeral (d :: ds) 0 Hds).
Qed.

(** X14: a count that is zero or written with a minus sign is not
    rejected: the script goes on with one bar in each direction. *)
Theorem counts_below_one_become_one d ds :
  Forall (λ d, (d < 10)%nat) (d :: ds) →
  get_rebar_counts (Some (String "-" (Py.numeral (d :: ds)))) = Returned (1, 1)%Z
  ∧ (Py.value (d :: ds) = 0%Z →
     get_rebar_counts (Some (Py.numeral (d :: ds))) = Returned (1, 1)%Z).
Proof.
  intros Hds. split.
  - rewrite get_rebar_counts_text. unfold parse_counts.
    assert (Py.no_space (String "-" (Py.numeral (d :: ds))) = true) as Hw
      by (cbn [Py.no_space]; now rewrite (no_space_numeral (d :: ds) Hds)).
    rewrite strip_word, split_word by exact Hw.
    rewrite (int_minus d ds Hds).
    pose proof (value_from_nonneg (d :: ds) 0 ltac:(lia)) as Hpos.
    fold (Py.value (d :: ds)) in Hpos.
    now replace (Z.max 1 (- Py.value (d :: ds))) with 1%Z by lia.
  - intros Hzero. rewrite (counts_of_numeral d ds Hds), Hzero. reflexivity.
Qed.

Lemma counts_below_one_become_one_witness :
  get_rebar_counts (Some "-25") = Returned (1, 1)%Z
  ∧ get_rebar_counts (Some "00") = Returned (1, 1)%Z.
Proof.
  split.
  - exact (proj1 (counts_below_one_become_one 2 [5]%nat
                    ltac:(repeat constructor; lia))).
  - exact (proj2 (counts_below_one_become_one 0 [0]%nat
                    ltac:(repeat constructor; lia)) eq_refl).
Defined.

Lemma lstrip_all_space s : all_space s = true → Py.lstrip s = EmptyString.
Proof.
  induction s as [|c s IH]; [reflexivity|].
  cbn [all_space Py.lstrip]. intros [Hc Hs]%andb_true_iff.
  rewrite Hc. now apply IH.
Qed.

(** X15: an answer made of white space only is not "no input": it reaches
    the parser, which finds no token, and the script ends with the format
    message. *)
Theorem blank_answer_is_a_format_error c text :
  all_space (String c text) = true →
  parse_counts (String c text) = None
  ∧ get_rebar_counts (Some (String c text)) = Raised format_message.
Proof.
  intros Hblank.
  assert (parse_counts (String c text) = None) as Hparse.
  { unfold parse_counts, Py.strip. now rewrite (lstrip_all_space _ Hblank). }
  split; [exact Hparse|]. rewrite get_rebar_counts_text. now rewrite Hparse.
Qed.

Lemma blank_answer_is_a_format_error_witness :
  get_rebar_counts (Some "   ") = Raised format_message.
Proof.
  exact (proj2 (blank_answer_is_a_format_error " "%char "  " eq_refl)).
Defined.

End Answers.

End InsertRebarMore.

(** ** The positions of the bars in binary64 *)

Module Binary64Facts.
Import InsertRebar Binary64 Measures InsertRebarFacts InsertRebarMore.

(** The cover is the float closest to 0.04. *)
Lemma binary64_cover : SNI_COVER = 0x1.47ae147ae147bp-5%float.
Proof. vm_compute. reflexivity. Qed.

(** *** Numbers that are the same *)

Lemma SFcompare_refl x : x ≠ S754_nan → SFcompare x x = Some Eq.
Proof.
  destruct x as [s|s| |s m e]; intros Hx; try congruence.
  - reflexivity.
  - destruct s; reflexivity.
  - cbn. destruct s; rewrite Z.compare_refl, Pos.compare_cont_refl; reflexivity.
Qed.

Lemma same_number_spec x y :
  same_number x y = true ↔
  SFeqb (Prim2SF x) (Prim2SF y) = true
  ∨ (Prim2SF x = S754_nan ∧ Prim2SF y = S754_nan).
Proof.
  unfold same_number, is_nan. rewrite !FloatAxioms.eqb_spec.
  rewrite orb_true_iff, andb_true_iff, !negb_true_iff.
  assert (∀ z, SFeqb z z = false ↔ z = S754_nan) as Hnan.
  { intros z. split.
    - intros H. destruct z as [s|s| |s m e]; try reflexivity;
        unfold SFeqb in H; rewrite SFcompare_refl in H by discriminate;
        discriminate.
    - intros ->. reflexivity. }
  now rewrite !Hnan.
Qed.

(** Adding a zero, of either sign, gives the same number. *)
Lemma same_number_add_zero a z sz :
  Prim2SF z = S754_zero sz → same_number (a + z)%float a = true.
Proof.
  intros Hz. apply same_number_spec. rewrite add_spec, Hz.
  unfold SF64add, SFadd.
  destruct (Prim2SF a) as [s|s| |s m e] eqn:Ha.
  - left. destruct s, sz; reflexivity.
  - left. unfold SFeqb. now rewrite SFcompare_refl.
  - right. auto.
  - left. unfold SFeqb. now rewrite SFcompare_refl.
Qed.

(** Zero times a finite number is a zero. *)
Lemma mul_zero_finite z s sz :
  Prim2SF z = S754_zero sz → finite s = true →
  ∃ sp, Prim2SF (z * s)%float = S754_zero sp.
Proof.
  intros Hz Hs. rewrite mul_spec, Hz. unfold finite in Hs.
  unfold SF64mul, SFmul.
  destruct (Prim2SF s) as [t|t| |t m e]; try discriminate; eauto.
Qed.

(** The bar of index 0 is at the first position, as long as the spacing
    is finite. *)
Lemma first_position (a s : float) :
  finite s = true → same_number (a + float_of_int 0 * s)%float a = true.
Proof.
  intros Hs.
  destruct (mul_zero_finite (float_of_int 0) s false eq_refl Hs) as [sp Hz].
  exact (same_number_add_zero a _ sp Hz).
Qed.

Lemma finite_zero : finite (float_of_int 0) = true.
Proof. reflexivity. Qed.

(** C2: the vertical bars of a placement, in the numbers of the script.
    Whatever the host does, the bars created are the first of the list
    [xs] of positions, and all of it when the placement succeeds.  [xs] has
    one position for each of the [vertical] bars.  One bar is at
    [minX + cover].  With [n > 1] bars, bar [i] is at
    [minX + cover + i * ((maxX - minX - 2 * cover) / (n - 1))], every
    operation rounded to binary64 in this order, and the first bar is at
    [minX + cover] when the spacing is finite.  For the box with X from 0
    to 1 and three bars the positions are the floats printed 0.04, 0.5 and
    0.9600000000000001. *)
Theorem vertical_bars_at_rounded_positions
        (raises : list (Event float) → Call float → option string)
        (element : Element float) bbox rebar_type vertical horizontal past :
  BoundingBox element = Some bbox →
  (∃ xs : list float,
      created_xs (place_rebars raises element rebar_type vertical horizontal past).1
        `prefix_of` xs
      ∧ ((place_rebars raises element rebar_type vertical horizontal past).2 = true →
         created_xs (place_rebars raises element rebar_type vertical horizontal past).1
         = xs)
      ∧ length xs = Z.to_nat vertical
      ∧ (vertical = 1%Z →
         ∃ x, xs = [x] ∧ same_number x (X (Min bbox) + SNI_COVER)%float = true)
      ∧ ((1 < vertical)%Z →
         ∀ k, (k < Z.to_nat vertical)%nat →
              xs !! k
              = Some (X (Min bbox) + SNI_COVER
                      + float_of_int (Z.of_nat k)
                        * ((X (Max bbox) - X (Min bbox) - 2 * SNI_COVER)
                           / float_of_int (vertical - 1)))%float)
      ∧ ((1 < vertical)%Z →
         finite ((X (Max bbox) - X (Min bbox) - 2 * SNI_COVER)
                 / float_of_int (vertical - 1))%float = true →
         ∃ x0, xs !! 0%nat = Some x0
               ∧ same_number x0 (X (Min bbox) + SNI_COVER)%float = true))
  ∧ created_xs (place_rebars obliging slab 99 3 1 []).1
    = [0x1.47ae147ae147bp-5; 0x1p-1; 0x1.eb851eb851eb9p-1]%float.
Proof.
  intros Hbox. split; [|vm_compute; reflexivity].
  destruct (place_rebars_created raises element bbox rebar_type vertical horizontal
              past Hbox) as (Hprefix & _ & Hall).
  eexists. split; [exact Hprefix|]. split; [intros Hok; exact (proj1 (Hall Hok))|].
  split; [now rewrite length_map, range_length|].
  split; [|split].
  - intros ->. eexists. split; [reflexivity|].
    exact (first_position _ (float_of_int 0) finite_zero).
  - intros Hn k Hk.
    change (map ?f (Py.range vertical)) with (f <$> Py.range vertical).
    rewrite list_lookup_fmap, (range_lookup vertical k Hk), spacing_many by exact Hn.
    reflexivity.
  - intros Hn Hs. eexists. split.
    + change (map ?f (Py.range vertical)) with (f <$> Py.range vertical).
      rewrite list_lookup_fmap, (range_lookup vertical 0) by lia. reflexivity.
    + rewrite spacing_many by exact Hn. exact (first_position _ _ Hs).
Qed.

Lemma vertical_bars_at_rounded_positions_witness :
  ∃ xs : list float,
    created_xs (place_rebars obliging slab 99 3 1 []).1 = xs
    ∧ length xs = 3%nat
    ∧ xs !! 2%nat
      = Some (0 + SNI_COVER + 2 * ((1 - 0 - 2 * SNI_COVER) / 2))%float.
Proof.
  destruct (vertical_bars_at_rounded_positions obliging slab unit_box 99 3 1 []
              eq_refl) as [(xs & _ & Hall & Hlen & _ & Hmany & _) _].
  exists xs. split; [apply Hall; vm_compute; reflexivity|].
  split; [exact Hlen|].
  exact (Hmany ltac:(lia) 2%nat ltac:(lia)).
Defined.

(** For the example of the specification the third bar is not at 0.96:
    it is the float after the one closest to 0.96, and lies beyond
    [maxX - cover], both as the script computes that bound and as a
    rational number; and the second step is longer than the first. *)
Lemma third_bar_is_beyond_the_cover :
  created_xs (place_rebars obliging slab 99 3 1 []).1
  = [0x1.47ae147ae147bp-5; 0x1p-1; 0x1.eb851eb851eb9p-1]%float
  ∧ (X (Max unit_box) - SNI_COVER)%float = 0x1.eb851eb851eb8p-1%float
  ∧ (X (Max unit_box) - SNI_COVER <? 0x1.eb851eb851eb9p-1)%float = true
  ∧ exact_value 0x1.47ae147ae147bp-5
    = Some (5764607523034235 # 144115188075855872)%Q
  ∧ exact_value 0x1p-1 = Some (4503599627370496 # 9007199254740992)%Q
  ∧ exact_value 0x1.eb851eb851eb8p-1
    = Some (8646911284551352 # 9007199254740992)%Q
  ∧ exact_value 0x1.eb851eb851eb9p-1
    = Some (8646911284551353 # 9007199254740992)%Q
  ∧ ((8646911284551352 # 9007199254740992) < 24 # 25)%Q
  ∧ (24 # 25 < 8646911284551353 # 9007199254740992)%Q
  ∧ ((24 # 25) - (8646911284551352 # 9007199254740992)
     < (8646911284551353 # 9007199254740992) - (24 # 25))%Q
  ∧ ((4503599627370496 # 9007199254740992)
       - (5764607523034235 # 144115188075855872)
     < (8646911284551353 # 9007199254740992)
       - (4503599627370496 # 9007199254740992))%Q.
Proof. repeat split; vm_compute; reflexivity. Qed.

(** X9: the horizontal bars of a placement, in the numbers of the script,
    are spread over the height as the vertical ones over the width.  The
    bars created are the first of the list [zs], and all of it when the
    placement succeeds; one bar is at [minZ + cover]; with [n > 1] bars,
    bar [i] is at [minZ + cover + i * ((maxZ - minZ - 2 * cover) / (n - 1))]
    in binary64, the first at [minZ + cover] when the spacing is finite.
    For the box with Z from 0 to 2 and three bars the positions are the
    floats closest to 0.04, 1 and 1.96. *)
Theorem horizontal_bars_at_rounded_positions
        (raises : list (Event float) → Call float → option string)
        (element : Element float) bbox rebar_type vertical horizontal past :
  BoundingBox element = Some bbox →
  (∃ zs : list float,
      created_zs (place_rebars raises element rebar_type vertical horizontal past).1
        `prefix_of` zs
      ∧ ((place_rebars raises element rebar_type vertical horizontal past).2 = true →
         created_zs (place_rebars raises element rebar_type vertical horizontal past).1
         = zs)
      ∧ length zs = Z.to_nat horizontal
      ∧ (horizontal = 1%Z →
         ∃ z, zs = [z] ∧ same_number z (Z_ (Min bbox) + SNI_COVER)%float = true)
      ∧ ((1 < horizontal)%Z →
         ∀ k, (k < Z.to_nat horizontal)%nat →
              zs !! k
              = Some (Z_ (Min bbox) + SNI_COVER
                      + float_of_int (Z.of_nat k)
                        * ((Z_ (Max bbox) - Z_ (Min bbox) - 2 * SNI_COVER)
                           / float_of_int (horizontal - 1)))%float)
      ∧ ((1 < horizontal)%Z →
         finite ((Z_ (Max bbox) - Z_ (Min bbox) - 2 * SNI_COVER)
                 / float_of_int (horizontal - 1))%float = true →
         ∃ z0, zs !! 0%nat = Some z0
               ∧ same_number z0 (Z_ (Min bbox) + SNI_COVER)%float = true))
  ∧ created_zs (place_rebars obliging slab 99 1 3 []).1
    = [0x1.47ae147ae147bp-5; 0x1p+0; 0x1.f5c28f5c28f5cp+0]%float.
Proof.
  intros Hbox. split; [|vm_compute; reflexivity].
  destruct (place_rebars_created raises element bbox rebar_type vertical horizontal
              past Hbox) as (_ & Hprefix & Hall).
  eexists. split; [exact Hprefix|]. split; [intros Hok; exact (proj2 (Hall Hok))|].
  split; [now rewrite length_map, range_length|].
  split; [|split].
  - intros ->. eexists. split; [reflexivity|].
    exact (first_position _ (float_of_int 0) finite_zero).
  - intros Hn k Hk.
    change (map ?f (Py.range horizontal)) with (f <$> Py.range horizontal).
    rewrite list_lookup_fmap, (range_lookup horizontal k Hk), spacing_many
      by exact Hn.
    reflexivity.
  - intros Hn Hs. eexists. split.
    + change (map ?f (Py.range horizontal)) with (f <$> Py.range horizontal).
      rewrite list_lookup_fmap, (range_lookup horizontal 0) by lia. reflexivity.
    + rewrite spacing_many by exact Hn. exact (first_position _ _ Hs).
Qed.

Lemma horizontal_bars_at_rounded_positions_witness :
  ∃ zs : list float,
    created_zs (place_rebars obliging slab 99 1 3 []).1 = zs
    ∧ length zs = 3%nat
    ∧ ∃ z0, zs !! 0%nat = Some z0 ∧ same_number z0 (0 + SNI_COVER)%float = true.
Proof.
  destruct (horizontal_bars_at_rounded_positions obliging slab unit_box 99 1 3 []
              eq_refl) as [(zs & _ & Hall & Hlen & _ & _ & Hfirst) _].
  exists zs. split; [apply Hall; vm_compute; reflexivity|].
  split; [exact Hlen|].
  exact (Hfirst ltac:(lia) ltac:(vm_compute; reflexivity)).
Defined.

End Binary64Facts.
